(** * Knora test-route scripts: [create-thing.py] and [createBEOLTEIMapping.py]

    A shallow embedding of the two request scripts under
    [webapi/_test_data/test_route], together with the parts of Python's
    standard library ([json], [open], [print], [traceback]) and of
    [requests] that the scripts call.

    - a Python [str] is a list of code points, [bytes] a list of [byte];
    - the payload dictionaries are values of [json]; a [dict] is an
      association list in insertion order;
    - a script is a computation in a state-and-exception monad whose state
      holds the script's local variables and the trace of what it did
      (requests put on the wire, lines printed, tracebacks written);
    - the file system, the locale and the network are the [World] the
      script runs in. *)

From Stdlib Require Import List NArith ZArith Lia Bool String Ascii.
From Stdlib Require DecimalFacts DecimalPos DecimalN DecimalZ.
From Stdlib.Strings Require Import Byte.
Import ListNotations.

Set Warnings "-register-all".

Local Open Scope N_scope.
Local Open Scope list_scope.

(* ================================================================= *)
(** ** Python strings *)

(** A code point.  Python admits [0 .. 0x10FFFF]. *)
Abbreviation char := N (only parsing).

Abbreviation pystr := (list N) (only parsing).

(** A literal: the code points of an ASCII Rocq string. *)
Definition py (s : string) : pystr := map N_of_ascii (list_ascii_of_string s).

Definition c_quote : char := 34.
Definition c_backslash : char := 92.
Definition c_newline : char := 10.
Definition c_return : char := 13.

(** The double quote and the line feed, which a Rocq literal cannot hold
    conveniently. *)
Definition dq : pystr := [c_quote].
Definition nl : pystr := [c_newline].

Fixpoint pystr_eqb (s t : pystr) : bool :=
  match s, t with
  | [], [] => true
  | c :: s', d :: t' => (c =? d) && pystr_eqb s' t'
  | _, _ => false
  end.

(** [sep.join(l)] *)
Fixpoint join (sep : pystr) (l : list pystr) : pystr :=
  match l with
  | [] => []
  | x :: l' =>
      match l' with
      | [] => x
      | _ :: _ => x ++ sep ++ join sep l'
      end
  end.

(** Code points of Unicode text: in range and not a surrogate. *)
Definition is_high_surrogate (c : char) : bool := (0xD800 <=? c) && (c <=? 0xDBFF).
Definition is_low_surrogate (c : char) : bool := (0xDC00 <=? c) && (c <=? 0xDFFF).

Definition scalar (c : char) : Prop := c < 0xD800 \/ (0xDFFF < c /\ c < 0x110000).

(* ================================================================= *)
(** ** Payload values *)

(** What the scripts' dictionaries are made of: [str], [int], [list] and
    [dict] with [str] keys. *)
Unset Elimination Schemes.
Inductive json : Type :=
| JStr (s : pystr)
| JInt (n : Z)
| JList (l : list json)
| JDict (d : list (pystr * json)).
Set Elimination Schemes.

Definition keys (d : list (pystr * json)) : list pystr := map fst d.

(** Insertion into a [dict]: a key already present keeps its place. *)
Fixpoint dict_set (d : list (pystr * json)) (k : pystr) (v : json)
  : list (pystr * json) :=
  match d with
  | [] => [(k, v)]
  | (k', v') :: d' =>
      if pystr_eqb k k' then (k', v) :: d' else (k', v') :: dict_set d' k v
  end.

(** [dict(pairs)] *)
Definition dict_of_pairs (pairs : list (pystr * json)) : list (pystr * json) :=
  fold_left (fun d kv => dict_set d (fst kv) (snd kv)) pairs [].

(** [d[k]]; [None] stands for a [KeyError]. *)
Fixpoint dict_get (d : list (pystr * json)) (k : pystr) : option json :=
  match d with
  | [] => None
  | (k', v) :: d' => if pystr_eqb k k' then Some v else dict_get d' k
  end.

(** Every key of every [dict] inside a value. *)
Fixpoint all_keys (v : json) : list pystr :=
  match v with
  | JStr _ | JInt _ => []
  | JList l => flat_map all_keys l
  | JDict d => flat_map (fun kv => fst kv :: all_keys (snd kv)) d
  end.

(** Well-formed payloads: strings are Unicode text and the keys of a
    [dict] are distinct. *)
Definition valid_str (s : pystr) : Prop := Forall scalar s.

Inductive valid : json -> Prop :=
| valid_str_ s : valid_str s -> valid (JStr s)
| valid_int n : valid (JInt n)
| valid_list l : Forall valid l -> valid (JList l)
| valid_dict d :
    NoDup (keys d) ->
    Forall (fun kv => valid_str (fst kv) /\ valid (snd kv)) d ->
    valid (JDict d).

(** Executable versions, for concrete payloads. *)
Definition scalarb (c : char) : bool :=
  (c <? 0xD800) || ((0xDFFF <? c) && (c <? 0x110000)).

Fixpoint nodupb (l : list pystr) : bool :=
  match l with
  | [] => true
  | x :: l' => negb (existsb (pystr_eqb x) l') && nodupb l'
  end.

Fixpoint validb (v : json) : bool :=
  match v with
  | JStr s => forallb scalarb s
  | JInt _ => true
  | JList l => forallb validb l
  | JDict d =>
      nodupb (keys d)
      && forallb (fun kv => forallb scalarb (fst kv) && validb (snd kv)) d
  end.

(* ================================================================= *)
(** ** [json.dumps] with its defaults

    [ensure_ascii=True], separators [", "] and [": "], no indentation. *)

(** [format(d, 'x')] of one hexadecimal digit. *)
Definition hexdigit (d : N) : char := if d <? 10 then 48 + d else 87 + d.

(** ['\\u{0:04x}'.format(n)] *)
Definition escape_u (n : N) : pystr :=
  [c_backslash; 117;
   hexdigit (n / 4096); hexdigit ((n / 256) mod 16);
   hexdigit ((n / 16) mod 16); hexdigit (n mod 16)].

(** The replacement [py_encode_basestring_ascii] makes for one character:
    [ESCAPE_DCT] first, then [\uXXXX], a surrogate pair above the BMP;
    characters from the space to the tilde other than the quote and the
    backslash stay. *)
Definition escape_char (c : char) : pystr :=
  if c =? c_quote then [c_backslash; c_quote]
  else if c =? c_backslash then [c_backslash; c_backslash]
  else if c =? 8 then [c_backslash; 98]
  else if c =? 12 then [c_backslash; 102]
  else if c =? 10 then [c_backslash; 110]
  else if c =? 13 then [c_backslash; 114]
  else if c =? 9 then [c_backslash; 116]
  else if (32 <=? c) && (c <=? 126) then [c]
  else if c <? 0x10000 then escape_u c
  else
    let n := c - 0x10000 in
    escape_u (N.lor 0xD800 (N.land (N.shiftr n 10) 0x3FF))
    ++ escape_u (N.lor 0xDC00 (N.land n 0x3FF)).

Definition encode_basestring_ascii (s : pystr) : pystr :=
  dq ++ flat_map escape_char s ++ dq.

(** [int.__repr__]: decimal digits, most significant first. *)
Definition digit_char (d : N) : char := 48 + d.

Fixpoint uint_chars (u : Decimal.uint) : pystr :=
  match u with
  | Decimal.Nil => []
  | Decimal.D0 u' => digit_char 0 :: uint_chars u'
  | Decimal.D1 u' => digit_char 1 :: uint_chars u'
  | Decimal.D2 u' => digit_char 2 :: uint_chars u'
  | Decimal.D3 u' => digit_char 3 :: uint_chars u'
  | Decimal.D4 u' => digit_char 4 :: uint_chars u'
  | Decimal.D5 u' => digit_char 5 :: uint_chars u'
  | Decimal.D6 u' => digit_char 6 :: uint_chars u'
  | Decimal.D7 u' => digit_char 7 :: uint_chars u'
  | Decimal.D8 u' => digit_char 8 :: uint_chars u'
  | Decimal.D9 u' => digit_char 9 :: uint_chars u'
  end.

Definition int_repr (n : Z) : pystr :=
  match Z.to_int n with
  | Decimal.Pos u => uint_chars u
  | Decimal.Neg u => 45 :: uint_chars u
  end.

Definition item_separator : pystr := py ", ".
Definition key_separator : pystr := py ": ".

Fixpoint dumps (v : json) : pystr :=
  match v with
  | JStr s => encode_basestring_ascii s
  | JInt n => int_repr n
  | JList l => py "[" ++ join item_separator (map dumps l) ++ py "]"
  | JDict d =>
      py "{"
      ++ join item_separator
           (map (fun kv =>
                   encode_basestring_ascii (fst kv) ++ key_separator
                   ++ dumps (snd kv)) d)
      ++ py "}"
  end.

(* ================================================================= *)
(** ** [json.loads] with its defaults

    The decoder of [json.decoder] and [json.scanner], on the rest of the
    input instead of an index into it.  [None] stands for a
    [JSONDecodeError], and also for the literals whose values are not
    payload values ([true], [false], [null], floats, [NaN], [Infinity]). *)

(** [WHITESPACE = re.compile(r'[ \t\n\r]*')] *)
Definition is_ws (c : char) : bool :=
  (c =? 32) || (c =? 9) || (c =? 10) || (c =? 13).

Fixpoint skip_ws (s : pystr) : pystr :=
  match s with
  | [] => []
  | c :: s' => if is_ws c then skip_ws s' else s
  end.

(** One of [0-9A-Fa-f], as [int(_, 16)] reads it. *)
Definition hexval (c : char) : option N :=
  if (48 <=? c) && (c <=? 57) then Some (c - 48)
  else if (97 <=? c) && (c <=? 102) then Some (c - 87)
  else if (65 <=? c) && (c <=? 70) then Some (c - 55)
  else None.

(** [_decode_uXXXX]: the four characters after [\u]. *)
Definition decode_uXXXX (h1 h2 h3 h4 : char) : option N :=
  match hexval h1, hexval h2, hexval h3, hexval h4 with
  | Some a, Some b, Some c, Some d => Some (((a * 16 + b) * 16 + c) * 16 + d)
  | _, _, _, _ => None
  end.

(** The table [BACKSLASH] of one-character escapes. *)
Definition BACKSLASH (esc : char) : option char :=
  if esc =? c_quote then Some c_quote
  else if esc =? c_backslash then Some c_backslash
  else if esc =? 47 then Some 47
  else if esc =? 98 then Some 8
  else if esc =? 102 then Some 12
  else if esc =? 110 then Some 10
  else if esc =? 114 then Some 13
  else if esc =? 116 then Some 9
  else None.

Definition push (c : char) (r : option (pystr * pystr)) : option (pystr * pystr) :=
  match r with
  | Some (str, rest) => Some (c :: str, rest)
  | None => None
  end.

(** [py_scanstring] in strict mode, from just after the opening quote: the
    string and the input after its closing quote. *)
Fixpoint scanstring (s : pystr) : option (pystr * pystr) :=
  match s with
  | [] => None
  | c :: s1 =>
      if c =? c_quote then Some ([], s1)
      else if c =? c_backslash then
        match s1 with
        | [] => None
        | esc :: s2 =>
            if esc =? 117 then
              match s2 with
              | h1 :: h2 :: h3 :: h4 :: s6 =>
                  match decode_uXXXX h1 h2 h3 h4 with
                  | None => None
                  | Some uni =>
                      if is_high_surrogate uni then
                        match s6 with
                        | b :: u :: s8 =>
                            if (b =? c_backslash) && (u =? 117) then
                              match s8 with
                              | g1 :: g2 :: g3 :: g4 :: s12 =>
                                  match decode_uXXXX g1 g2 g3 g4 with
                                  | None => None
                                  | Some uni2 =>
                                      if is_low_surrogate uni2 then
                                        push (0x10000
                                              + N.lor (N.shiftl (uni - 0xD800) 10)
                                                      (uni2 - 0xDC00))
                                             (scanstring s12)
                                      else push uni (scanstring s6)
                                  end
                              | _ => None
                              end
                            else push uni (scanstring s6)
                        | _ => push uni (scanstring s6)
                        end
                      else push uni (scanstring s6)
                  end
              | _ => None
              end
            else
              match BACKSLASH esc with
              | Some ch => push ch (scanstring s2)
              | None => None
              end
        end
      else if c <? 32 then None
      else push c (scanstring s1)
  end.

(** [NUMBER_RE]: an integer part (an optional minus sign, then a single
    zero or a non-zero digit followed by any digits), an optional fraction
    (a dot and digits) and an optional exponent ([e] or [E], an optional
    sign, digits). *)
Definition is_digit (c : char) : bool := (48 <=? c) && (c <=? 57).

Definition digit_cons (c : char) (u : Decimal.uint) : Decimal.uint :=
  match c - 48 with
  | 0 => Decimal.D0 u | 1 => Decimal.D1 u | 2 => Decimal.D2 u
  | 3 => Decimal.D3 u | 4 => Decimal.D4 u | 5 => Decimal.D5 u
  | 6 => Decimal.D6 u | 7 => Decimal.D7 u | 8 => Decimal.D8 u
  | _ => Decimal.D9 u
  end.

(** The longest run of digits at the head of the input. *)
Fixpoint scan_digits (s : pystr) : Decimal.uint * pystr :=
  match s with
  | [] => (Decimal.Nil, [])
  | c :: s' =>
      if is_digit c then
        let (u, r) := scan_digits s' in (digit_cons c u, r)
      else (Decimal.Nil, s)
  end.

Definition signed (neg : bool) (u : Decimal.uint) : Decimal.int :=
  if neg then Decimal.Neg u else Decimal.Pos u.

(** Group 1 of [NUMBER_RE]. *)
Definition match_integer (s : pystr) : option (Decimal.int * pystr) :=
  let (neg, s1) :=
    match s with
    | c :: s' => if c =? 45 then (true, s') else (false, s)
    | [] => (false, s)
    end in
  match s1 with
  | [] => None
  | c :: s2 =>
      if c =? 48 then Some (signed neg (Decimal.D0 Decimal.Nil), s2)
      else if is_digit c then
        let (u, r) := scan_digits s1 in Some (signed neg u, r)
      else None
  end.

(** Whether group 2, a fraction, matches here. *)
Definition has_frac (s : pystr) : bool :=
  match s with
  | c :: d :: _ => (c =? 46) && is_digit d
  | _ => false
  end.

(** Whether group 3, an exponent, matches here. *)
Definition has_exp (s : pystr) : bool :=
  match s with
  | e :: d :: r =>
      ((e =? 101) || (e =? 69))
      && (is_digit d
          || (((d =? 43) || (d =? 45))
              && match r with d' :: _ => is_digit d' | [] => false end))
  | _ => false
  end.

(** [py_make_scanner]'s [_scan_once], with [JSONArray] and [JSONObject].
    [array_loop] and [object_loop] are the [while True] loops of the two;
    [object_loop] starts just after the opening quote of a key.  The fuel
    bounds the nesting and the number of items; [loads] gives one more than
    the length of its input, which is enough for whatever [dumps] wrote. *)
Fixpoint scan_once (fuel : nat) (s : pystr) {struct fuel}
  : option (json * pystr) :=
  match fuel with
  | O => None
  | S fuel' =>
      match s with
      | [] => None
      | c :: s1 =>
          if c =? c_quote then
            match scanstring s1 with
            | Some (str, r) => Some (JStr str, r)
            | None => None
            end
          else if c =? 123 then
            match skip_ws s1 with
            | [] => None
            | d :: r =>
                if d =? 125 then Some (JDict [], r)
                else if d =? c_quote then
                  match object_loop fuel' r with
                  | Some (pairs, r') => Some (JDict (dict_of_pairs pairs), r')
                  | None => None
                  end
                else None
            end
          else if c =? 91 then
            match skip_ws s1 with
            | [] => None
            | d :: r =>
                if d =? 93 then Some (JList [], r)
                else
                  match array_loop fuel' (d :: r) with
                  | Some (vs, r') => Some (JList vs, r')
                  | None => None
                  end
            end
          else
            match match_integer s with
            | Some (i, r) =>
                if has_frac r || has_exp r then None
                else Some (JInt (Z.of_int i), r)
            | None => None
            end
      end
  end

with array_loop (fuel : nat) (s : pystr) {struct fuel}
  : option (list json * pystr) :=
  match fuel with
  | O => None
  | S fuel' =>
      match scan_once fuel' s with
      | None => None
      | Some (v, r) =>
          match skip_ws r with
          | [] => None
          | d :: r1 =>
              if d =? 93 then Some ([v], r1)
              else if d =? 44 then
                match array_loop fuel' (skip_ws r1) with
                | Some (vs, r2) => Some (v :: vs, r2)
                | None => None
                end
              else None
          end
      end
  end

with object_loop (fuel : nat) (s : pystr) {struct fuel}
  : option (list (pystr * json) * pystr) :=
  match fuel with
  | O => None
  | S fuel' =>
      match scanstring s with
      | None => None
      | Some (key, r) =>
          match skip_ws r with
          | [] => None
          | c :: r1 =>
              if c =? 58 then
                match scan_once fuel' (skip_ws r1) with
                | None => None
                | Some (v, r2) =>
                    match skip_ws r2 with
                    | [] => None
                    | d :: r3 =>
                        if d =? 125 then Some ([(key, v)], r3)
                        else if d =? 44 then
                          match skip_ws r3 with
                          | [] => None
                          | q :: r4 =>
                              if q =? c_quote then
                                match object_loop fuel' r4 with
                                | Some (pairs, r5) => Some ((key, v) :: pairs, r5)
                                | None => None
                                end
                              else None
                          end
                        else None
                    end
                end
              else None
          end
      end
  end.

(** [JSONDecoder.decode]: one value, white space around it, nothing after. *)
Definition loads (s : pystr) : option json :=
  match scan_once (S (List.length s)) (skip_ws s) with
  | Some (v, r) =>
      match skip_ws r with
      | [] => Some v
      | _ :: _ => None
      end
  | None => None
  end.

(* ================================================================= *)
(** ** Text files: codecs and universal newlines *)

Definition byte_of_N (n : N) : byte :=
  match Byte.of_N n with
  | Some b => b
  | None => x00
  end.

Definition is_surrogate (c : char) : bool := (0xD800 <=? c) && (c <=? 0xDFFF).

(** [str.encode('utf-8')] of one code point; [None] is a
    [UnicodeEncodeError] (surrogates cannot be encoded). *)
Definition utf8_encode_char (c : char) : option (list byte) :=
  if c <? 0x80 then Some [byte_of_N c]
  else if c <? 0x800 then
    Some [byte_of_N (0xC0 + c / 64); byte_of_N (0x80 + c mod 64)]
  else if c <? 0x10000 then
    if is_surrogate c then None
    else Some [byte_of_N (0xE0 + c / 4096);
               byte_of_N (0x80 + (c / 64) mod 64);
               byte_of_N (0x80 + c mod 64)]
  else if c <? 0x110000 then
    Some [byte_of_N (0xF0 + c / 262144);
          byte_of_N (0x80 + (c / 4096) mod 64);
          byte_of_N (0x80 + (c / 64) mod 64);
          byte_of_N (0x80 + c mod 64)]
  else None.

Fixpoint utf8_encode (s : pystr) : option (list byte) :=
  match s with
  | [] => Some []
  | c :: s' =>
      match utf8_encode_char c, utf8_encode s' with
      | Some a, Some b => Some (a ++ b)
      | _, _ => None
      end
  end.

Definition is_cont (n : N) : bool := (0x80 <=? n) && (n <=? 0xBF).

(** [bytes.decode('utf-8')], strict: no overlong forms, no surrogates,
    nothing above [0x10FFFF]; [None] is a [UnicodeDecodeError]. *)
Fixpoint utf8_decode (bs : list byte) : option pystr :=
  match bs with
  | [] => Some []
  | b0 :: t0 =>
      let n0 := Byte.to_N b0 in
      if n0 <? 0x80 then option_map (cons n0) (utf8_decode t0)
      else if n0 <? 0xC2 then None
      else if n0 <? 0xE0 then
        match t0 with
        | b1 :: t1 =>
            let n1 := Byte.to_N b1 in
            if is_cont n1 then
              option_map (cons ((n0 - 0xC0) * 64 + (n1 - 0x80))) (utf8_decode t1)
            else None
        | _ => None
        end
      else if n0 <? 0xF0 then
        match t0 with
        | b1 :: b2 :: t2 =>
            let n1 := Byte.to_N b1 in
            let n2 := Byte.to_N b2 in
            let c := (n0 - 0xE0) * 4096 + (n1 - 0x80) * 64 + (n2 - 0x80) in
            if is_cont n1 && is_cont n2 && (0x800 <=? c) && negb (is_surrogate c)
            then option_map (cons c) (utf8_decode t2)
            else None
        | _ => None
        end
      else if n0 <? 0xF5 then
        match t0 with
        | b1 :: b2 :: b3 :: t3 =>
            let n1 := Byte.to_N b1 in
            let n2 := Byte.to_N b2 in
            let n3 := Byte.to_N b3 in
            let c := (n0 - 0xF0) * 262144 + (n1 - 0x80) * 4096
                     + (n2 - 0x80) * 64 + (n3 - 0x80) in
            if is_cont n1 && is_cont n2 && is_cont n3
               && (0x10000 <=? c) && (c <? 0x110000)
            then option_map (cons c) (utf8_decode t3)
            else None
        | _ => None
        end
      else None
  end.

(** The encodings a locale may prefer. *)
Inductive codec : Type := UTF_8 | Latin_1 | US_ASCII.

Definition decode (enc : codec) (bs : list byte) : option pystr :=
  match enc with
  | UTF_8 => utf8_decode bs
  | Latin_1 => Some (map Byte.to_N bs)
  | US_ASCII =>
      if forallb (fun b => Byte.to_N b <? 0x80) bs
      then Some (map Byte.to_N bs) else None
  end.

(** Reading with [newline=None]: [\r\n] and a lone [\r] become [\n]. *)
Fixpoint universal_newlines (s : pystr) : pystr :=
  match s with
  | [] => []
  | c :: s' =>
      if c =? c_return then
        c_newline
        :: universal_newlines
             match s' with
             | d :: s'' => if d =? c_newline then s'' else s'
             | [] => s'
             end
      else c :: universal_newlines s'
  end.

(** What [open(path)] returns: a file opened for reading in text mode, in
    the locale's preferred encoding. *)
Record file : Type := { raw : list byte; encoding : codec }.

(** [f.read()]; [None] is a [UnicodeDecodeError]. *)
Definition read (f : file) : option pystr :=
  option_map universal_newlines (decode (encoding f) (raw f)).

(* ================================================================= *)
(** ** [requests]: responses, requests, exceptions *)

Record Response : Type :=
  { status_code : Z; reason : pystr; resp_url : pystr; text : pystr }.

Inductive exn : Type :=
| HTTPError (msg : pystr) (response : Response)
| ConnectionError (msg : pystr)
| FileNotFoundError (filename : pystr)
| UnicodeDecodeError (enc : codec)
| UnicodeEncodeError
| ValueError (msg : pystr)
| NameError (name : string).

(** [isinstance(e, Exception)]: every class above derives from
    [Exception]. *)
Definition isinstance_Exception (e : exn) : bool :=
  match e with
  | HTTPError _ _ | ConnectionError _ | FileNotFoundError _
  | UnicodeDecodeError _ | UnicodeEncodeError | ValueError _ | NameError _ => true
  end.

(** The [data=] argument. *)
Inductive data_arg : Type :=
| DNone
| DStr (body : pystr)
| DDict (fields : list (pystr * pystr)).

(** The arguments of [requests.post]; a [files=] entry is
    [name: (filename, fileobj)]. *)
Record PostArgs : Type :=
  { url : pystr;
    data : data_arg;
    files : list (pystr * (pystr * file));
    headers : list (pystr * pystr);
    auth : option (pystr * pystr);
    proxies : list (pystr * pystr);
    timeout : option Z }.

(** One part of a [multipart/form-data] body. *)
Record Part : Type :=
  { part_name : pystr; part_filename : option pystr; part_content : list byte }.

Inductive wire_body : Type :=
| NoBody
| Raw (body : pystr)
| UrlEncoded (fields : list (pystr * pystr))
| Multipart (parts : list Part).

(** A request as it is sent. *)
Record Request : Type :=
  { req_method : pystr;
    req_url : pystr;
    req_headers : list (pystr * pystr);
    req_body : wire_body;
    req_auth : option (pystr * pystr);
    req_proxies : list (pystr * pystr);
    req_timeout : option Z }.

(** What becomes of a request: a response with some status, or no
    response at all (connection refused, proxy unreachable, ...). *)
Inductive outcome : Type :=
| Responded (r : Response)
| Refused (msg : pystr).

(** The surroundings of a run. *)
Record World : Type :=
  { fs : pystr -> option (list byte);
    locale : codec;
    network : Request -> outcome }.

(* ================================================================= *)
(** ** Running a script *)

(** What [print] is given: a string, or an exception, of which it writes
    [str(e)]. *)
Inductive printable : Type :=
| PText (s : pystr)
| PExn (e : exn).

(** What a script does that can be seen from outside: [Post], a request
    put on the wire; [Printed], a call of [print], one line on standard
    output; [PrintExc], a call of [traceback.print_exc()], the traceback
    of the exception on standard error. *)
Inductive event : Type :=
| Post (req : Request)
| Printed (p : printable)
| PrintExc (e : exn).

Inductive result (A : Type) : Type :=
| Ok (a : A)
| Raise (e : exn).
Arguments Ok {A} a.
Arguments Raise {A} e.

Section Monad.
(** The script's local variables. *)
Variable L : Type.

Record state : Type := { vars : L; trace : list event }.

Definition M (A : Type) : Type := state -> result A * state.

Definition ret {A} (a : A) : M A := fun st => (Ok a, st).

Definition bind {A B} (m : M A) (k : A -> M B) : M B :=
  fun st =>
    match m st with
    | (Ok a, st') => k a st'
    | (Raise e, st') => (Raise e, st')
    end.

Definition raise {A} (e : exn) : M A := fun st => (Raise e, st).

Definition emit (ev : event) : M unit :=
  fun st => (Ok tt, {| vars := vars st; trace := trace st ++ [ev] |}).

(** Reading a variable: a [NameError] when it is not bound. *)
Definition load {A} (name : string) (get : L -> option A) : M A :=
  fun st =>
    match get (vars st) with
    | Some a => (Ok a, st)
    | None => (Raise (NameError name), st)
    end.

(** An assignment. *)
Definition store (upd : L -> L) : M unit :=
  fun st => (Ok tt, {| vars := upd (vars st); trace := trace st |}).

(** [try: body except <class> as e: handler e] *)
Definition try_except (body : M unit) (catches : exn -> bool)
           (handler : exn -> M unit) : M unit :=
  fun st =>
    match body st with
    | (Ok u, st') => (Ok u, st')
    | (Raise e, st') =>
        if catches e then handler e st' else (Raise e, st')
    end.

Definition print (s : pystr) : M unit := emit (Printed (PText s)).
Definition print_exn (e : exn) : M unit := emit (Printed (PExn e)).
Definition print_exc (e : exn) : M unit := emit (PrintExc e).
End Monad.

Arguments vars {L} s.
Arguments trace {L} s.
Arguments ret {L A} a.
Arguments bind {L A B} m k.
Arguments raise {L A} e.
Arguments emit {L} ev.
Arguments load {L A} name get.
Arguments store {L} upd.
Arguments try_except {L} body catches handler.
Arguments print {L} s.
Arguments print_exn {L} e.
Arguments print_exc {L} e.

Notation "x <- m ;; k" := (bind m (fun x => k))
  (at level 61, m at next level, right associativity).
Notation "m ;; k" := (bind m (fun _ => k))
  (at level 61, right associativity).

Definition lift_result {L A} (r : result A) : M L A :=
  fun st => (r, st).

(** How a run ends: the end of the script, or an exception nothing caught,
    for which the interpreter writes a traceback and exits with status 1. *)
Inductive exit : Type :=
| Exited
| Uncaught (e : exn).

Definition exit_code (x : exit) : Z :=
  match x with
  | Exited => 0%Z
  | Uncaught _ => 1%Z
  end.

Definition run {L} (init : L) (m : M L unit) : list event * exit :=
  match m {| vars := init; trace := [] |} with
  | (Ok _, st) => (trace st, Exited)
  | (Raise e, st) => (trace st, Uncaught e)
  end.

(** The three channels of a trace. *)
Definition posts (t : list event) : list Request :=
  flat_map (fun ev => match ev with Post q => [q] | _ => [] end) t.

Definition stdout (t : list event) : list printable :=
  flat_map (fun ev => match ev with Printed p => [p] | _ => [] end) t.

Definition stderr (t : list event) : list exn :=
  flat_map (fun ev => match ev with PrintExc e => [e] | _ => [] end) t.

(** [open(path)] *)
Definition open_ {L} (w : World) (path : pystr) : M L file :=
  match fs w path with
  | Some bs => ret {| raw := bs; encoding := locale w |}
  | None => raise (FileNotFoundError path)
  end.

(** [Response.raise_for_status] *)
Definition http_error_msg (r : Response) : pystr :=
  let code := status_code r in
  if ((400 <=? code) && (code <? 500))%Z then
    int_repr code ++ py " Client Error: " ++ reason r
    ++ py " for url: " ++ resp_url r
  else if ((500 <=? code) && (code <? 600))%Z then
    int_repr code ++ py " Server Error: " ++ reason r
    ++ py " for url: " ++ resp_url r
  else [].

Definition raise_for_status {L} (r : Response) : M L unit :=
  match http_error_msg r with
  | [] => ret tt
  | msg => raise (HTTPError msg r)
  end.

(** [RequestEncodingMixin._encode_files]: the fields of [data] first, then
    the files, each read to its end; text is sent as UTF-8. *)
Definition field_part (f : pystr * pystr) : result Part :=
  match utf8_encode (snd f) with
  | Some c =>
      Ok {| part_name := fst f; part_filename := None; part_content := c |}
  | None => Raise UnicodeEncodeError
  end.

Definition file_part (f : pystr * (pystr * file)) : result Part :=
  let (name, fn_fp) := f in
  let (fn, fp) := fn_fp in
  match read fp with
  | None => Raise (UnicodeDecodeError (encoding fp))
  | Some fdata =>
      match utf8_encode fdata with
      | Some c =>
          Ok {| part_name := name; part_filename := Some fn; part_content := c |}
      | None => Raise UnicodeEncodeError
      end
  end.

Fixpoint collect {A B} (f : A -> result B) (l : list A) : result (list B) :=
  match l with
  | [] => Ok []
  | a :: l' =>
      match f a with
      | Raise e => Raise e
      | Ok b =>
          match collect f l' with
          | Raise e => Raise e
          | Ok bs => Ok (b :: bs)
          end
      end
  end.

Definition encode_files (fl : list (pystr * (pystr * file))) (d : data_arg)
  : result wire_body :=
  match d with
  | DStr _ => Raise (ValueError (py "Data must not be a string."))
  | DNone =>
      match collect file_part fl with
      | Ok ps => Ok (Multipart ps)
      | Raise e => Raise e
      end
  | DDict fields =>
      match collect field_part fields with
      | Raise e => Raise e
      | Ok fps =>
          match collect file_part fl with
          | Ok ps => Ok (Multipart (fps ++ ps))
          | Raise e => Raise e
          end
      end
  end.

(** [PreparedRequest.prepare_body]: with files, a multipart body; without,
    the string as it is or the fields of the dictionary, and no body when
    [data] is empty. *)
Definition prepare_body (a : PostArgs) : result wire_body :=
  match files a with
  | _ :: _ => encode_files (files a) (data a)
  | [] =>
      match data a with
      | DNone | DStr [] | DDict [] => Ok NoBody
      | DStr s => Ok (Raw s)
      | DDict fields => Ok (UrlEncoded fields)
      end
  end.

(** [requests.post]: prepare the request, send it once, and return the
    response or raise what the transport raised. *)
Definition request_of (a : PostArgs) (b : wire_body) : Request :=
  {| req_method := py "POST"; req_url := url a; req_headers := headers a;
     req_body := b; req_auth := auth a; req_proxies := proxies a;
     req_timeout := timeout a |}.

Definition requests_post {L} (w : World) (a : PostArgs) : M L Response :=
  b <- lift_result (prepare_body a) ;;
  emit (Post (request_of a b)) ;;
  match network w (request_of a b) with
  | Responded r => ret r
  | Refused msg => raise (ConnectionError msg)
  end.

(* ================================================================= *)
(** ** [create-thing.py] *)

Module create_thing.

(** The script's variables. *)
Record locals : Type :=
  { base_url : option pystr;
    params : option json;
    xml : option pystr;
    props : option pystr;
    r : option Response }.

Definition unbound : locals :=
  {| base_url := None; params := None; xml := None; props := None; r := None |}.

Definition set_base_url (v : pystr) (l : locals) : locals :=
  {| base_url := Some v; params := params l; xml := xml l;
     props := props l; r := r l |}.
Definition set_params (v : json) (l : locals) : locals :=
  {| base_url := base_url l; params := Some v; xml := xml l;
     props := props l; r := r l |}.
Definition set_xml (v : pystr) (l : locals) : locals :=
  {| base_url := base_url l; params := params l; xml := Some v;
     props := props l; r := r l |}.
Definition set_props (v : pystr) (l : locals) : locals :=
  {| base_url := base_url l; params := params l; xml := xml l;
     props := Some v; r := r l |}.
Definition set_r (v : Response) (l : locals) : locals :=
  {| base_url := base_url l; params := params l; xml := xml l;
     props := props l; r := Some v |}.

(** The first dictionary bound to [params]. *)
Definition params_1 : json :=
  JDict
    [ (py "_link",
       JList
         [ JDict [ (py "start", JInt 0); (py "end", JInt 4);
                   (py "resid", JStr (py "http://data.knora.org/9935159f67"));
                   (py "href", JStr (py "http://data.knora.org/9935159f67")) ];
           JDict [ (py "start", JInt 5); (py "end", JInt 7);
                   (py "href", JStr (py "http://www.google.ch")) ] ]);
      (py "bold",
       JList
         [ JDict [ (py "start", JInt 9); (py "end", JInt 11) ];
           JDict [ (py "start", JInt 16); (py "end", JInt 18) ] ]) ].

(** The triple-quoted string bound to [xml]. *)
Definition xml_literal : pystr :=
  py "<?xml version=" ++ dq ++ py "1.0" ++ dq ++ py " encoding=" ++ dq
  ++ py "UTF-8" ++ dq ++ py "?>" ++ nl
  ++ py "       <text>" ++ nl
  ++ py "            <u><strong>This</strong></u> <u>text</u> <a class="
  ++ dq ++ py "salsah-link" ++ dq ++ py " href=" ++ dq
  ++ py "http://data.knora.org/9935159f67" ++ dq
  ++ py ">links</a> to a thing" ++ nl
  ++ py "       </text>" ++ nl
  ++ py "    ".

(** The second dictionary bound to [params]. *)
Definition params_2 (xml : pystr) : json :=
  JDict
    [ (py "restype_id", JStr (py "http://www.knora.org/ontology/anything#Thing"));
      (py "label", JStr (py "A thing to test with"));
      (py "project_id", JStr (py "http://data.knora.org/projects/anything"));
      (py "properties",
       JDict
         [ (py "http://www.knora.org/ontology/anything#hasText",
            JList
              [ JDict
                  [ (py "richtext_value",
                     JDict
                       [ (py "xml", JStr xml);
                         (py "mapping_id",
                          JStr (py "http://data.knora.org/projects/standoff/mappings/StandardMapping")) ]) ] ]);
           (py "http://www.knora.org/ontology/anything#hasInteger",
            JList [ JDict [ (py "int_value", JInt 12345) ] ]) ]) ].

(** The call of [requests.post]. *)
Definition post_args (base_url props : pystr) : PostArgs :=
  {| url := base_url ++ py "resources";
     data := DStr props;
     files := [];
     headers := [ (py "content-type", py "application/json; charset=utf8") ];
     auth := Some (py "root", py "test");
     proxies := [ (py "http", py "http://localhost:3333") ];
     timeout := None |}.

(** From [xml = ...] to the end of the [try] block. *)
Definition rest_of_try (w : World) : M locals unit :=
  store (set_xml xml_literal) ;;
  x <- load "xml" xml ;;
  store (set_params (params_2 x)) ;;
  p <- load "params" params ;;
  store (set_props (dumps p)) ;;
  b <- load "base_url" base_url ;;
  d <- load "props" props ;;
  resp <- requests_post w (post_args b d) ;;
  store (set_r resp) ;;
  r1 <- load "r" r ;;
  raise_for_status r1 ;;
  r2 <- load "r" r ;;
  print (text r2).

Definition try_block (w : World) : M locals unit :=
  store (set_base_url (py "http://localhost/v1/")) ;;
  store (set_params params_1) ;;
  rest_of_try w.

(** [except Exception as e:] *)
Definition handler (e : exn) : M locals unit :=
  print (py "Knora API answered with an error:" ++ nl) ;;
  print_exn e ;;
  r3 <- load "r" r ;;
  print (text r3).

Definition script (w : World) : M locals unit :=
  try_except (try_block w) isinstance_Exception handler.

Definition main (w : World) : list event * exit := run unbound (script w).

(** The script with the first assignment to [params] taken out. *)
Definition script_without_params_1 (w : World) : M locals unit :=
  try_except
    (store (set_base_url (py "http://localhost/v1/")) ;; rest_of_try w)
    isinstance_Exception handler.

Definition main_without_params_1 (w : World) : list event * exit :=
  run unbound (script_without_params_1 w).

End create_thing.

(* ================================================================= *)
(** ** [texts/createBEOLTEIMapping.py] *)

Module createBEOLTEIMapping.

Record locals : Type :=
  { mappingParams : option json;
    mappingRequest : option Response }.

Definition unbound : locals :=
  {| mappingParams := None; mappingRequest := None |}.

Definition set_mappingParams (v : json) (l : locals) : locals :=
  {| mappingParams := Some v; mappingRequest := mappingRequest l |}.
Definition set_mappingRequest (v : Response) (l : locals) : locals :=
  {| mappingParams := mappingParams l; mappingRequest := Some v |}.

Definition mappingParams_literal : json :=
  JDict
    [ (py "http://api.knora.org/ontology/knora-api/v2#mappingHasName",
       JStr (py "BEOLTEIMapping"));
      (py "http://api.knora.org/ontology/knora-api/v2#attachedToProject",
       JStr (py "http://rdfh.ch/projects/yTerZGyxjZVqFMNNKXCDPF"));
      (py "http://www.w3.org/2000/01/rdf-schema#label",
       JStr (py "TEI mapping")) ].

Definition xml_path : pystr := py "../../../src/main/resources/BEOLTEImapping.xml".

Definition post_args (json_field : pystr) (f : file) : PostArgs :=
  {| url := py "http://localhost:3333/v2/mapping";
     data := DDict [ (py "json", json_field) ];
     files := [ (py "xml", (py "BEOLTEImapping.xml", f)) ];
     headers := [];
     auth := Some (py "t.schweizer@unibas.ch", py "test");
     proxies := [ (py "http", py "http://localhost:3333") ];
     timeout := None |}.

(** The arguments of [requests.post] are evaluated from left to right:
    [json.dumps] before [open]. *)
Definition try_block (w : World) : M locals unit :=
  store (set_mappingParams mappingParams_literal) ;;
  mp <- load "mappingParams" mappingParams ;;
  let j := dumps mp in
  f <- open_ w xml_path ;;
  resp <- requests_post w (post_args j f) ;;
  store (set_mappingRequest resp) ;;
  m1 <- load "mappingRequest" mappingRequest ;;
  print (text m1) ;;
  m2 <- load "mappingRequest" mappingRequest ;;
  raise_for_status m2.

(** The bare [except:] *)
Definition handler (e : exn) : M locals unit := print_exc e.

Definition script (w : World) : M locals unit :=
  try_except (try_block w) (fun _ => true) handler.

Definition main (w : World) : list event * exit := run unbound (script w).

End createBEOLTEIMapping.

(* ================================================================= *)
(** ** Both scripts *)

Inductive script : Type :=
| create_thing_py
| createBEOLTEIMapping_py.

Definition main (s : script) (w : World) : list event * exit :=
  match s with
  | create_thing_py => create_thing.main w
  | createBEOLTEIMapping_py => createBEOLTEIMapping.main w
  end.




(** What [create-thing.py] sends. *)
Definition thing_request : Request :=
  request_of
    (create_thing.post_args
       (py "http://localhost/v1/")
       (dumps (create_thing.params_2 create_thing.xml_literal)))
    (Raw (dumps (create_thing.params_2 create_thing.xml_literal))).

(* ================================================================= *)
(** ** Notions used in the statements *)

(** *** Reading back what [json.dumps] wrote *)

(** Input on which a number stops. *)
Definition no_digit (s : pystr) : Prop :=
  match s with
  | [] => True
  | c :: _ => is_digit c = false
  end.

(** What may follow a value inside a list or a dictionary, or at the end
    of the input. *)
Definition delimited (s : pystr) : Prop :=
  match s with
  | [] => True
  | c :: _ => c = 44 \/ c = 93 \/ c = 125
  end.

(** The first character of a value. *)
Definition value_start (c : char) : Prop :=
  c = 34 \/ c = 45 \/ is_digit c = true \/ c = 91 \/ c = 123.

(** A value is read back from what was written for it, whatever the
    delimiter after it, given fuel for its length. *)
Definition parses (v : json) : Prop :=
  forall fuel rest,
    (List.length (dumps v) <= fuel)%nat -> delimited rest ->
    scan_once fuel (dumps v ++ rest) = Some (v, rest).

(** The text of one item of a dictionary. *)
Definition item_text (kv : pystr * json) : pystr :=
  encode_basestring_ascii (fst kv) ++ key_separator ++ dumps (snd kv).

(** *** Steps of the UTF-8 decoder *)

(** One step of the decoder: the bytes it takes, the code point it makes
    of them and the bytes it leaves. *)
Inductive utf8_step : list byte -> char -> list byte -> Prop :=
| step1 b0 t :
    Byte.to_N b0 < 0x80 ->
    utf8_step (b0 :: t) (Byte.to_N b0) t
| step2 b0 b1 t c :
    c = (Byte.to_N b0 - 0xC0) * 64 + (Byte.to_N b1 - 0x80) ->
    0xC2 <= Byte.to_N b0 < 0xE0 ->
    0x80 <= Byte.to_N b1 <= 0xBF ->
    utf8_step (b0 :: b1 :: t) c t
| step3 b0 b1 b2 t c :
    c = (Byte.to_N b0 - 0xE0) * 4096 + (Byte.to_N b1 - 0x80) * 64
        + (Byte.to_N b2 - 0x80) ->
    0xE0 <= Byte.to_N b0 < 0xF0 ->
    0x80 <= Byte.to_N b1 <= 0xBF ->
    0x80 <= Byte.to_N b2 <= 0xBF ->
    0x800 <= c -> ~ (0xD800 <= c <= 0xDFFF) ->
    utf8_step (b0 :: b1 :: b2 :: t) c t
| step4 b0 b1 b2 b3 t c :
    c = (Byte.to_N b0 - 0xF0) * 262144 + (Byte.to_N b1 - 0x80) * 4096
        + (Byte.to_N b2 - 0x80) * 64 + (Byte.to_N b3 - 0x80) ->
    0xF0 <= Byte.to_N b0 < 0xF5 ->
    0x80 <= Byte.to_N b1 <= 0xBF ->
    0x80 <= Byte.to_N b2 <= 0xBF ->
    0x80 <= Byte.to_N b3 <= 0xBF ->
    0x10000 <= c < 0x110000 ->
    utf8_step (b0 :: b1 :: b2 :: b3 :: t) c t.

(** *** Requests and parts *)

(** The first line [create-thing.py] prints when it fails. *)
Definition thing_header : event :=
  Printed (PText (py "Knora API answered with an error:" ++ nl)).

(** [createBEOLTEIMapping.py]: the file it opens and the request it
    prepares. *)
Definition mapping_args (w : World) (bs : list byte) : PostArgs :=
  createBEOLTEIMapping.post_args
    (dumps createBEOLTEIMapping.mappingParams_literal)
    {| raw := bs; encoding := locale w |}.

(** The two parts [createBEOLTEIMapping.py] sends. *)
Definition json_part : Part :=
  {| part_name := py "json";
     part_filename := None;
     part_content :=
       map byte_of_N (dumps createBEOLTEIMapping.mappingParams_literal) |}.

Definition xml_part (content : list byte) : Part :=
  {| part_name := py "xml";
     part_filename := Some (py "BEOLTEImapping.xml");
     part_content := content |}.

(** *** Concrete files, responses and worlds *)

(** A file of five bytes, [<a/>] and a line feed. *)
Definition lf_file : list byte := [x3c; x61; x2f; x3e; x0a].

(** A file of four bytes with a Windows line ending. *)
Definition crlf_file : list byte := [x61; x0d; x0a; x62].

Definition resp_ok : Response :=
  {| status_code := 200; reason := py "OK";
     resp_url := py "http://localhost/v1/resources";
     text := py "{}" |}.


(** A world with the file [lf_file] at every path, a UTF-8 locale and a
    server that answers every request with [r]. *)
Definition world_answering (r : Response) : World :=
  {| fs := fun _ => Some lf_file;
     locale := UTF_8;
     network := fun _ => Responded r |}.

(** The same, with nothing listening. *)
Definition world_refusing : World :=
  {| fs := fun _ => Some lf_file;
     locale := UTF_8;
     network := fun _ => Refused (py "Connection refused") |}.

(** A world without files. *)
Definition world_without_file : World :=
  {| fs := fun _ => None;
     locale := UTF_8;
     network := fun _ => Responded resp_ok |}.

(** A world whose file has a Windows line ending. *)
Definition world_with_crlf_file : World :=
  {| fs := fun _ => Some crlf_file;
     locale := UTF_8;
     network := fun _ => Responded resp_ok |}.

(** A world whose locale prefers Latin-1, with a file of one byte, an
    e with an acute accent in that encoding. *)
Definition latin_1_file : list byte := [xe9].

Definition world_with_latin_1_locale : World :=
  {| fs := fun _ => Some latin_1_file;
     locale := Latin_1;
     network := fun _ => Responded resp_ok |}.

(** *** Further notions *)


(** Every string inside a value, keys included. *)
Fixpoint all_strings (v : json) : list pystr :=
  match v with
  | JStr s => [s]
  | JInt _ => []
  | JList l => flat_map all_strings l
  | JDict d => flat_map (fun kv => fst kv :: all_strings (snd kv)) d
  end.

(** The code points Python admits in a [str]. *)
Definition in_range (s : pystr) : Prop := Forall (fun c => c < 0x110000) s.

Definition in_rangeb (s : pystr) : bool := forallb (fun c => c <? 0x110000) s.

(** From the space to the tilde. *)
Definition printable_ascii (c : char) : Prop := 32 <= c <= 126.


(** A world with a UTF-8 locale whose file is not UTF-8. *)
Definition world_with_undecodable_file : World :=
  {| fs := fun _ => Some latin_1_file;
     locale := UTF_8;
     network := fun _ => Responded resp_ok |}.


(* ================================================================= *)
(** * Properties *)

Ltac N_arith :=
  first [lia | zify; Z.to_euclidean_division_equations; lia].

(** ** Strings: [scanstring] undoes [encode_basestring_ascii] *)

Lemma hexval_hexdigit (d : N) : d < 16 -> hexval (hexdigit d) = Some d.
Proof.
  intros H. unfold hexdigit, hexval.
  destruct (N.ltb_spec d 10).
  - replace ((48 <=? 48 + d) && (48 + d <=? 57)) with true.
    + f_equal. lia.
    + symmetry. apply andb_true_iff. split; apply N.leb_le; lia.
  - replace ((48 <=? 87 + d) && (87 + d <=? 57)) with false.
    2:{ symmetry. apply andb_false_iff. right. apply N.leb_gt. lia. }
    replace ((97 <=? 87 + d) && (87 + d <=? 102)) with true.
    + f_equal. lia.
    + symmetry. apply andb_true_iff. split; apply N.leb_le; lia.
Qed.

Lemma decode_escape_u (n : N) :
  n < 65536 ->
  decode_uXXXX (hexdigit (n / 4096)) (hexdigit ((n / 256) mod 16))
               (hexdigit ((n / 16) mod 16)) (hexdigit (n mod 16)) = Some n.
Proof.
  intros H. unfold decode_uXXXX.
  rewrite !hexval_hexdigit by N_arith. f_equal. N_arith.
Qed.

Lemma scanstring_quote (s : pystr) : scanstring (c_quote :: s) = Some ([], s).
Proof. reflexivity. Qed.

Lemma scanstring_plain (c : char) (s : pystr) :
  c <> c_quote -> c <> c_backslash -> 32 <= c ->
  scanstring (c :: s) = push c (scanstring s).
Proof.
  intros Hq Hb Hc. cbn [scanstring].
  apply N.eqb_neq in Hq, Hb. apply N.ltb_ge in Hc. now rewrite Hq, Hb, Hc.
Qed.

Lemma scanstring_escape (esc ch : char) (s : pystr) :
  esc <> 117 -> BACKSLASH esc = Some ch ->
  scanstring (c_backslash :: esc :: s) = push ch (scanstring s).
Proof.
  intros Hu Hb. cbn [scanstring]. apply N.eqb_neq in Hu.
  change (c_backslash =? c_quote) with false.
  change (c_backslash =? c_backslash) with true. cbv iota.
  now rewrite Hu, Hb.
Qed.

Lemma scanstring_u (h1 h2 h3 h4 uni : char) (s : pystr) :
  decode_uXXXX h1 h2 h3 h4 = Some uni ->
  is_high_surrogate uni = false ->
  scanstring (c_backslash :: 117 :: h1 :: h2 :: h3 :: h4 :: s)
  = push uni (scanstring s).
Proof.
  intros Hd Hh. cbn [scanstring].
  change (c_backslash =? c_quote) with false.
  change (c_backslash =? c_backslash) with true.
  change (117 =? 117) with true. cbv iota.
  now rewrite Hd, Hh.
Qed.

Lemma scanstring_pair (h1 h2 h3 h4 g1 g2 g3 g4 uni uni2 : char) (s : pystr) :
  decode_uXXXX h1 h2 h3 h4 = Some uni ->
  is_high_surrogate uni = true ->
  decode_uXXXX g1 g2 g3 g4 = Some uni2 ->
  is_low_surrogate uni2 = true ->
  scanstring (c_backslash :: 117 :: h1 :: h2 :: h3 :: h4
              :: c_backslash :: 117 :: g1 :: g2 :: g3 :: g4 :: s)
  = push (0x10000 + N.lor (N.shiftl (uni - 0xD800) 10) (uni2 - 0xDC00))
         (scanstring s).
Proof.
  intros Hd Hh Hd2 Hl. cbn [scanstring].
  change (c_backslash =? c_quote) with false.
  change (c_backslash =? c_backslash) with true.
  change (117 =? 117) with true. cbv iota.
  rewrite Hd, Hh. cbn [andb]. now rewrite Hd2, Hl.
Qed.

Lemma scanstring_escape_pair (n1 n2 : N) (tl : pystr) :
  n1 < 65536 -> is_high_surrogate n1 = true ->
  n2 < 65536 -> is_low_surrogate n2 = true ->
  scanstring ((escape_u n1 ++ escape_u n2) ++ tl)
  = push (0x10000 + N.lor (N.shiftl (n1 - 0xD800) 10) (n2 - 0xDC00))
         (scanstring tl).
Proof.
  intros H1 Hh H2 Hl.
  apply scanstring_pair; auto using decode_escape_u.
Qed.

(** Bits: a value below [2^n] put under a multiple of [2^n]. *)
Lemma lor_shiftl_add (a x n : N) :
  x < 2 ^ n -> N.lor (N.shiftl a n) x = a * 2 ^ n + x.
Proof.
  intros Hx.
  assert (Hland : N.land (N.shiftl a n) x = 0).
  { apply N.bits_inj_0. intros i. rewrite N.land_spec.
    destruct (N.lt_ge_cases i n) as [Hi|Hi].
    - now rewrite N.shiftl_spec_low.
    - destruct (N.eq_dec x 0) as [->|Hx0]; [now rewrite N.bits_0, andb_false_r|].
      rewrite (N.bits_above_log2 x i), andb_false_r; [reflexivity|].
      apply N.lt_le_trans with n; [|exact Hi].
      apply N.log2_lt_pow2; lia. }
  rewrite <- N.lxor_lor by exact Hland.
  rewrite <- N.add_nocarry_lxor by exact Hland.
  now rewrite N.shiftl_mul_pow2.
Qed.

Lemma high_surrogate_of (n : N) :
  n < 0x100000 ->
  N.lor 0xD800 (N.land (N.shiftr n 10) 0x3FF) = 0xD800 + n / 1024.
Proof.
  intros H. change 0x3FF with (N.ones 10).
  rewrite N.land_ones, N.shiftr_div_pow2. change (2 ^ 10) with 1024.
  change 0xD800 with (N.shiftl 54 10) at 1.
  rewrite lor_shiftl_add; change (2 ^ 10) with 1024.
  all: N_arith.
Qed.

Lemma low_surrogate_of (n : N) :
  N.lor 0xDC00 (N.land n 0x3FF) = 0xDC00 + n mod 1024.
Proof.
  change 0x3FF with (N.ones 10). rewrite N.land_ones.
  change (2 ^ 10) with 1024. change 0xDC00 with (N.shiftl 55 10) at 1.
  rewrite lor_shiftl_add; change (2 ^ 10) with 1024; N_arith.
Qed.

Lemma surrogates_join (n : N) :
  N.lor (N.shiftl (0xD800 + n / 1024 - 0xD800) 10) (0xDC00 + n mod 1024 - 0xDC00)
  = n.
Proof.
  replace (0xD800 + n / 1024 - 0xD800) with (n / 1024) by N_arith.
  replace (0xDC00 + n mod 1024 - 0xDC00) with (n mod 1024) by N_arith.
  rewrite lor_shiftl_add; change (2 ^ 10) with 1024; N_arith.
Qed.

Lemma BACKSLASH_inv (esc ch : char) :
  BACKSLASH esc = Some ch -> esc <> 117.
Proof. intros H ->. discriminate. Qed.

(** One character: what was written for it is read back as it. *)
Lemma scanstring_escape_char (c : char) (tl : pystr) :
  scalar c ->
  scanstring (escape_char c ++ tl) = push c (scanstring tl).
Proof.
  intros Hc. unfold escape_char.
  destruct (N.eqb_spec c c_quote) as [->|Hq];
    [now apply scanstring_escape|].
  destruct (N.eqb_spec c c_backslash) as [->|Hb];
    [now apply scanstring_escape|].
  destruct (N.eqb_spec c 8) as [->|H8]; [now apply scanstring_escape|].
  destruct (N.eqb_spec c 12) as [->|H12]; [now apply scanstring_escape|].
  destruct (N.eqb_spec c 10) as [->|H10]; [now apply scanstring_escape|].
  destruct (N.eqb_spec c 13) as [->|H13]; [now apply scanstring_escape|].
  destruct (N.eqb_spec c 9) as [->|H9]; [now apply scanstring_escape|].
  destruct (N.leb_spec 32 c) as [Hlo|Hlo];
    [destruct (N.leb_spec c 126) as [Hhi|Hhi]|]; cbn [andb].
  - now apply scanstring_plain.
  - destruct (N.ltb_spec c 65536) as [Hbmp|Hbmp].
    + apply scanstring_u; [now apply decode_escape_u|].
      unfold is_high_surrogate, scalar in *.
      destruct (N.leb_spec 55296 c), (N.leb_spec c 56319); cbn; lia || reflexivity.
    + unfold scalar in Hc. cbv zeta.
      rewrite high_surrogate_of, low_surrogate_of by lia.
      set (n := c - 65536).
      assert (Hn : n < 0x100000) by lia.
      etransitivity; [apply scanstring_escape_pair|].
      * N_arith.
      * unfold is_high_surrogate. apply andb_true_iff.
        split; apply N.leb_le; N_arith.
      * N_arith.
      * unfold is_low_surrogate. apply andb_true_iff.
        split; apply N.leb_le; N_arith.
      * rewrite surrogates_join. replace (65536 + n) with c by lia. reflexivity.
  - destruct (N.ltb_spec c 65536); [|lia].
    apply scanstring_u; [apply decode_escape_u; lia|].
    unfold is_high_surrogate. apply andb_false_iff. left. apply N.leb_gt. lia.
Qed.

Lemma scanstring_encode (s rest : pystr) :
  valid_str s ->
  scanstring (flat_map escape_char s ++ dq ++ rest) = Some (s, rest).
Proof.
  induction 1 as [|c s Hc _ IH]; [apply scanstring_quote|].
  cbn [flat_map]. rewrite <- app_assoc, scanstring_escape_char by exact Hc.
  now rewrite IH.
Qed.

(** ** Integers: [NUMBER_RE] and [int] undo [int.__repr__] *)

Lemma scan_digits_stop (s : pystr) : no_digit s -> scan_digits s = (Decimal.Nil, s).
Proof. destruct s as [|c s]; cbn; [reflexivity|]. now intros ->. Qed.

Lemma scan_digits_uint (u : Decimal.uint) (rest : pystr) :
  no_digit rest -> scan_digits (uint_chars u ++ rest) = (u, rest).
Proof.
  intros H. induction u; cbn [uint_chars app];
    [now apply scan_digits_stop | cbn [scan_digits]..];
    match goal with
    | |- context [is_digit (digit_char ?k)] =>
        change (is_digit (digit_char k)) with true
    end; cbv iota; rewrite IHu; reflexivity.
Qed.

(** The digits of a positive number begin with a digit that is not zero. *)
Lemma to_uint_head (p : positive) :
  exists c s, uint_chars (Pos.to_uint p) = c :: s
              /\ is_digit c = true /\ c <> 48 /\ c <> 45.
Proof.
  assert (Hn : Decimal.unorm (Pos.to_uint p) = Pos.to_uint p).
  { change (Pos.to_uint p) with (N.to_uint (Npos p)).
    rewrite <- DecimalN.Unsigned.to_of. f_equal. apply DecimalN.Unsigned.of_to. }
  pose proof (DecimalPos.Unsigned.to_uint_nonzero p) as Hz.
  pose proof (DecimalFacts.nzhead_nonzero (Pos.to_uint p)) as Hh.
  unfold Decimal.unorm in Hn. rewrite <- Hn in Hz |- *.
  destruct (Decimal.nzhead (Pos.to_uint p)) eqn:E;
    try (do 2 eexists; cbn [uint_chars]; split; [reflexivity|];
         repeat split; discriminate).
  - now contradiction Hz.
  - now contradiction (Hh u).
Qed.

Lemma match_integer_repr (n : Z) (rest : pystr) :
  no_digit rest ->
  match_integer (int_repr n ++ rest) = Some (Z.to_int n, rest).
Proof.
  intros H. unfold int_repr. destruct n as [|p|p]; cbn [Z.to_int].
  - reflexivity.
  - destruct (to_uint_head p) as (c & s & E & Hd & H0 & Hm).
    pose proof (scan_digits_uint (Pos.to_uint p) rest H) as Hs.
    rewrite E in *. cbn [app] in *. unfold match_integer.
    apply N.eqb_neq in H0, Hm. rewrite Hm, H0, Hd, Hs. reflexivity.
  - destruct (to_uint_head p) as (c & s & E & Hd & H0 & Hm).
    pose proof (scan_digits_uint (Pos.to_uint p) rest H) as Hs.
    rewrite E in *. cbn [app] in *. unfold match_integer.
    change (45 =? 45) with true. cbv iota.
    apply N.eqb_neq in H0. rewrite H0, Hd, Hs. reflexivity.
Qed.

Lemma int_repr_head (n : Z) :
  exists c s, int_repr n = c :: s /\ (c = 45 \/ is_digit c = true).
Proof.
  unfold int_repr. destruct n as [|p|p]; cbn [Z.to_int].
  - do 2 eexists. split; [reflexivity|]. now right.
  - destruct (to_uint_head p) as (c & s & E & Hd & _). eauto.
  - do 2 eexists. split; [reflexivity|]. now left.
Qed.

(** ** Values *)

Lemma delimited_no_digit (s : pystr) : delimited s -> no_digit s.
Proof. destruct s as [|c s]; [easy|]. now intros [->|[->| ->]]. Qed.

Lemma delimited_not_float (s : pystr) :
  delimited s -> has_frac s || has_exp s = false.
Proof.
  destruct s as [|c [|d s]]; [easy|easy|]. now intros [->|[->| ->]].
Qed.

Lemma delimited_skip_ws (s : pystr) : delimited s -> skip_ws s = s.
Proof. destruct s as [|c s]; [easy|]. now intros [->|[->| ->]]. Qed.

Lemma value_start_not_ws (c : char) : value_start c -> is_ws c = false.
Proof.
  unfold value_start, is_ws, is_digit.
  intros [->|[->|[H|[->| ->]]]]; try reflexivity.
  apply andb_true_iff in H. destruct H as [H1 H2]. apply N.leb_le in H1, H2.
  repeat (apply orb_false_iff; split); apply N.eqb_neq; lia.
Qed.

Lemma value_start_not_close (c : char) : value_start c -> c <> 93 /\ c <> 125.
Proof.
  unfold value_start, is_digit.
  intros [->|[->|[H|[->| ->]]]]; try (split; discriminate).
  apply andb_true_iff in H. destruct H as [H1 H2]. apply N.leb_le in H1, H2.
  split; lia.
Qed.

Lemma dumps_head (v : json) :
  exists c s, dumps v = c :: s /\ value_start c.
Proof.
  unfold value_start. destruct v as [s|n|l|d]; cbn [dumps].
  - do 2 eexists. split; [reflexivity|]. auto.
  - destruct (int_repr_head n) as (c & s & -> & [->|H]); eauto 8.
  - do 2 eexists. split; [reflexivity|]. auto 6.
  - do 2 eexists. split; [reflexivity|]. auto 6.
Qed.

Lemma skip_ws_dumps (v : json) (rest : pystr) :
  skip_ws (dumps v ++ rest) = dumps v ++ rest.
Proof.
  destruct (dumps_head v) as (c & s & -> & H).
  cbn [app skip_ws]. now rewrite (value_start_not_ws c H).
Qed.

Lemma dumps_length (v : json) : (0 < List.length (dumps v))%nat.
Proof. destruct (dumps_head v) as (c & s & -> & _). cbn. lia. Qed.

(** Unfolding the scanner by the character it looks at. *)
Lemma scan_once_string (fuel : nat) (s : pystr) :
  scan_once (S fuel) (c_quote :: s)
  = match scanstring s with
    | Some (str, r) => Some (JStr str, r)
    | None => None
    end.
Proof. reflexivity. Qed.

Lemma scan_once_number (fuel : nat) (c : char) (s : pystr) :
  c = 45 \/ is_digit c = true ->
  scan_once (S fuel) (c :: s)
  = match match_integer (c :: s) with
    | Some (i, r) =>
        if has_frac r || has_exp r then None else Some (JInt (Z.of_int i), r)
    | None => None
    end.
Proof.
  intros H. cbn [scan_once].
  assert (c <> c_quote /\ c <> 123 /\ c <> 91) as (H1 & H2 & H3).
  { destruct H as [->|H]; [repeat split; discriminate|].
    unfold is_digit in H. apply andb_true_iff in H. destruct H as [Ha Hb].
    apply N.leb_le in Ha, Hb. unfold c_quote. lia. }
  apply N.eqb_neq in H1, H2, H3. now rewrite H1, H2, H3.
Qed.

Lemma scan_once_array (fuel : nat) (s : pystr) :
  scan_once (S fuel) (91 :: s)
  = match skip_ws s with
    | [] => None
    | d :: r =>
        if d =? 93 then Some (JList [], r)
        else
          match array_loop fuel (d :: r) with
          | Some (vs, r') => Some (JList vs, r')
          | None => None
          end
    end.
Proof. reflexivity. Qed.

Lemma scan_once_object (fuel : nat) (s : pystr) :
  scan_once (S fuel) (123 :: s)
  = match skip_ws s with
    | [] => None
    | d :: r =>
        if d =? 125 then Some (JDict [], r)
        else if d =? c_quote then
          match object_loop fuel r with
          | Some (pairs, r') => Some (JDict (dict_of_pairs pairs), r')
          | None => None
          end
        else None
    end.
Proof. reflexivity. Qed.

Lemma array_loop_S (fuel : nat) (s : pystr) :
  array_loop (S fuel) s
  = match scan_once fuel s with
    | None => None
    | Some (v, r) =>
        match skip_ws r with
        | [] => None
        | d :: r1 =>
            if d =? 93 then Some ([v], r1)
            else if d =? 44 then
              match array_loop fuel (skip_ws r1) with
              | Some (vs, r2) => Some (v :: vs, r2)
              | None => None
              end
            else None
        end
    end.
Proof. reflexivity. Qed.

Lemma object_loop_S (fuel : nat) (s : pystr) :
  object_loop (S fuel) s
  = match scanstring s with
    | None => None
    | Some (key, r) =>
        match skip_ws r with
        | [] => None
        | c :: r1 =>
            if c =? 58 then
              match scan_once fuel (skip_ws r1) with
              | None => None
              | Some (v, r2) =>
                  match skip_ws r2 with
                  | [] => None
                  | d :: r3 =>
                      if d =? 125 then Some ([(key, v)], r3)
                      else if d =? 44 then
                        match skip_ws r3 with
                        | [] => None
                        | q :: r4 =>
                            if q =? c_quote then
                              match object_loop fuel r4 with
                              | Some (pairs, r5) => Some ((key, v) :: pairs, r5)
                              | None => None
                              end
                            else None
                        end
                      else None
                  end
              end
            else None
        end
    end.
Proof. reflexivity. Qed.

(** Induction on a value, with the hypothesis for every value inside. *)
Lemma json_ind (P : json -> Prop) :
  (forall s, P (JStr s)) ->
  (forall n, P (JInt n)) ->
  (forall l, Forall P l -> P (JList l)) ->
  (forall d, Forall (fun kv => P (snd kv)) d -> P (JDict d)) ->
  forall v, P v.
Proof.
  intros Hs Hi Hl Hd.
  fix IH 1. intros [s|n|l|d].
  - apply Hs.
  - apply Hi.
  - apply Hl. induction l as [|v l IHl]; constructor; [apply IH|exact IHl].
  - apply Hd. induction d as [|[k v] d IHd]; constructor; [apply IH|exact IHd].
Qed.

(** Dictionaries with distinct keys are what [dict] makes of their items. *)
Lemma pystr_eqb_eq (s t : pystr) : pystr_eqb s t = true <-> s = t.
Proof.
  revert t. induction s as [|c s IH]; intros [|d t]; cbn; try easy.
  rewrite andb_true_iff, N.eqb_eq, IH. split.
  - now intros [-> ->].
  - now intros [= -> ->].
Qed.

Lemma dict_set_fresh (d : list (pystr * json)) (k : pystr) (v : json) :
  ~ In k (keys d) -> dict_set d k v = d ++ [(k, v)].
Proof.
  induction d as [|[k' v'] d IH]; cbn; [reflexivity|]. intros H.
  destruct (pystr_eqb k k') eqn:E.
  - apply pystr_eqb_eq in E. subst. exfalso. auto.
  - rewrite IH; auto.
Qed.

Lemma fold_dict_set (l acc : list (pystr * json)) :
  NoDup (keys l) ->
  (forall k, In k (keys l) -> ~ In k (keys acc)) ->
  fold_left (fun d kv => dict_set d (fst kv) (snd kv)) l acc = acc ++ l.
Proof.
  revert acc. induction l as [|[k v] l IH]; intros acc Hn Hd; cbn.
  - now rewrite app_nil_r.
  - inversion Hn as [|? ? Hk Hn']; subst.
    rewrite dict_set_fresh by (apply Hd; now left).
    rewrite IH; [now rewrite <- app_assoc|exact Hn'|].
    intros k' Hk' Hin. unfold keys in Hin. rewrite map_app in Hin.
    apply in_app_or in Hin. destruct Hin as [Hin|[<-|[]]].
    + apply (Hd k'); [now right|exact Hin].
    + now apply Hk.
Qed.

Lemma dict_of_pairs_nodup (d : list (pystr * json)) :
  NoDup (keys d) -> dict_of_pairs d = d.
Proof. intros H. unfold dict_of_pairs. now rewrite fold_dict_set. Qed.

Lemma dumps_list (l : list json) :
  dumps (JList l) = 91 :: join item_separator (map dumps l) ++ [93].
Proof. reflexivity. Qed.

Lemma dumps_dict (d : list (pystr * json)) :
  dumps (JDict d) = 123 :: join item_separator (map item_text d) ++ [125].
Proof. reflexivity. Qed.

Lemma join_cons (sep x : pystr) (y : pystr) (l : list pystr) :
  join sep (x :: y :: l) = x ++ sep ++ join sep (y :: l).
Proof. reflexivity. Qed.

Lemma skip_ws_space (s : pystr) : skip_ws (32 :: s) = skip_ws s.
Proof. reflexivity. Qed.

Lemma skip_ws_value (s rest : pystr) :
  (exists c s', s = c :: s' /\ value_start c) ->
  skip_ws (s ++ rest) = s ++ rest.
Proof.
  intros (c & s' & -> & H). cbn [app skip_ws].
  now rewrite (value_start_not_ws c H).
Qed.

Lemma join_head (sep : pystr) (x : pystr) (l : list pystr) (P : char -> Prop) :
  (exists c s, x = c :: s /\ P c) ->
  exists c s, join sep (x :: l) = c :: s /\ P c.
Proof.
  intros (c & s & -> & H). destruct l; cbn [join app]; eauto.
Qed.

Lemma item_separator_length : List.length item_separator = 2%nat.
Proof. reflexivity. Qed.

Lemma array_loop_items (l : list json) :
  l <> [] -> Forall parses l ->
  forall fuel rest,
    (List.length (join item_separator (map dumps l)) < fuel)%nat ->
    array_loop fuel (join item_separator (map dumps l) ++ 93 :: rest)
    = Some (l, rest).
Proof.
  induction l as [|x l IH]; [easy|]. intros _ Hall fuel rest Hf.
  inversion Hall as [|? ? Hx Hl]; subst.
  destruct fuel as [|fuel]; [lia|]. rewrite array_loop_S.
  destruct l as [|y l].
  - cbn [map join] in *. rewrite Hx by (lia || (cbn; auto)).
    reflexivity.
  - specialize (IH ltac:(discriminate) Hl fuel rest).
    cbn [map] in *. rewrite join_cons in *.
    set (J := join item_separator (dumps y :: map dumps l)) in *.
    rewrite !length_app, item_separator_length in Hf.
    rewrite <- !app_assoc.
    change (item_separator ++ J ++ 93 :: rest)
      with (44 :: 32 :: J ++ 93 :: rest).
    rewrite Hx by (lia || (cbn; auto)).
    rewrite delimited_skip_ws by (cbn; auto).
    change (44 =? 93) with false. change (44 =? 44) with true. cbv iota.
    rewrite skip_ws_space, skip_ws_value
      by (apply join_head, dumps_head).
    rewrite IH by lia. reflexivity.
Qed.

Lemma scanstring_encode' (s rest : pystr) :
  valid_str s ->
  scanstring (flat_map escape_char s ++ c_quote :: rest) = Some (s, rest).
Proof. apply scanstring_encode. Qed.

Lemma item_text_eq (kv : pystr * json) :
  item_text kv
  = c_quote :: flat_map escape_char (fst kv)
      ++ c_quote :: 58 :: 32 :: dumps (snd kv).
Proof.
  unfold item_text, encode_basestring_ascii. now rewrite <- !app_assoc.
Qed.

Lemma item_text_length (kv : pystr * json) :
  (List.length (dumps (snd kv)) + 4 <= List.length (item_text kv))%nat.
Proof.
  rewrite item_text_eq. cbn [List.length]. rewrite !length_app.
  cbn [List.length]. lia.
Qed.

Lemma skip_ws_colon (s : pystr) : skip_ws (58 :: s) = 58 :: s.
Proof. reflexivity. Qed.

Lemma skip_ws_comma (s : pystr) : skip_ws (44 :: s) = 44 :: s.
Proof. reflexivity. Qed.

Lemma skip_ws_quote (s : pystr) : skip_ws (c_quote :: s) = c_quote :: s.
Proof. reflexivity. Qed.

Ltac step_char :=
  cbv beta iota;
  repeat match goal with
    | |- context [?a =? ?a] => change (a =? a) with true
    | |- context [44 =? 125] => change (44 =? 125) with false
    | |- context [44 =? 93] => change (44 =? 93) with false
    end;
  cbv beta iota.

Lemma object_loop_items (d : list (pystr * json)) :
  d <> [] ->
  Forall (fun kv => valid_str (fst kv) /\ parses (snd kv)) d ->
  forall fuel rest body,
    join item_separator (map item_text d) = c_quote :: body ->
    (List.length body < fuel)%nat ->
    object_loop fuel (body ++ 125 :: rest) = Some (d, rest).
Proof.
  induction d as [|[k v] d IH]; [easy|]. intros _ Hall fuel rest body Hb Hf.
  inversion Hall as [|? ? [Hk Hv] Hd]; subst. cbn [fst snd] in *.
  destruct fuel as [|fuel]; [lia|]. rewrite object_loop_S.
  destruct d as [|kv d].
  - clear IH. cbn [map join] in Hb. rewrite item_text_eq in Hb.
    injection Hb as <-. cbn [fst snd] in *.
    rewrite length_app in Hf. cbn [List.length] in Hf.
    rewrite <- !app_assoc. cbn [app].
    rewrite scanstring_encode' by exact Hk.
    rewrite skip_ws_colon. step_char.
    rewrite skip_ws_space, skip_ws_dumps.
    rewrite Hv by (lia || (cbn; auto)).
    reflexivity.
  - specialize (IH ltac:(discriminate) Hd fuel rest).
    cbn [map] in *. rewrite join_cons in Hb.
    set (J := join item_separator (item_text kv :: map item_text d)) in *.
    assert (HJ : exists body', J = c_quote :: body') .
    { destruct (join_head item_separator (item_text kv) (map item_text d)
                  (fun c => c = c_quote)) as (c & s & E & ->).
      - rewrite item_text_eq. eauto.
      - eauto. }
    destruct HJ as (body' & HJ). specialize (IH body' HJ).
    rewrite item_text_eq in Hb.
    change item_separator with [44; 32] in Hb.
    cbn [app fst snd] in Hb. injection Hb as <-.
    rewrite HJ in Hf |- *.
    repeat rewrite <- app_assoc. cbn [app].
    repeat (rewrite length_app in Hf; cbn [List.length] in Hf).
    rewrite scanstring_encode' by exact Hk.
    rewrite skip_ws_colon. step_char.
    rewrite skip_ws_space, skip_ws_dumps.
    rewrite Hv by (lia || (cbn; auto)).
    rewrite skip_ws_comma. step_char.
    rewrite skip_ws_space, skip_ws_quote. step_char.
    rewrite IH by lia. reflexivity.
Qed.


Lemma valid_parses (v : json) : valid v -> parses v.
Proof.
  induction v as [s|n|l IH|d IH] using json_ind; intros Hv fuel rest Hf Hr;
    inversion Hv as [? Hs|?|? Hl|? Hn Hd]; subst.
  - (* a string *)
    destruct fuel as [|fuel]; [pose proof (dumps_length (JStr s)); lia|].
    cbn [dumps]. unfold encode_basestring_ascii.
    rewrite <- !app_assoc. cbn [dq app].
    rewrite scan_once_string, scanstring_encode' by exact Hs. reflexivity.
  - (* an integer *)
    destruct fuel as [|fuel]; [pose proof (dumps_length (JInt n)); lia|].
    cbn [dumps]. destruct (int_repr_head n) as (c & s & E & Hc).
    pose proof (match_integer_repr n rest (delimited_no_digit rest Hr)) as Hm.
    rewrite E in *. cbn [app] in *.
    rewrite scan_once_number, Hm, delimited_not_float by assumption.
    now rewrite DecimalZ.of_to.
  - (* a list *)
    destruct fuel as [|fuel]; [pose proof (dumps_length (JList l)); lia|].
    rewrite dumps_list in *. cbn [List.length] in Hf.
    rewrite length_app in Hf. cbn [List.length] in Hf.
    cbn [app]. rewrite <- app_assoc. cbn [app]. rewrite scan_once_array.
    destruct l as [|x l].
    + reflexivity.
    + assert (Hp : Forall parses (x :: l)).
      { rewrite Forall_forall in *. auto. }
      rewrite skip_ws_value by (apply join_head, dumps_head).
      destruct (join_head item_separator (dumps x) (map dumps l) value_start
                  (dumps_head x)) as (c & s & E & Hc).
      pose proof (array_loop_items (x :: l) ltac:(discriminate) Hp fuel rest
                    ltac:(lia)) as Ha.
      cbn [map] in *. rewrite E in *. cbn [app] in *.
      destruct (value_start_not_close c Hc) as [Hc1 _].
      apply N.eqb_neq in Hc1. rewrite Hc1, Ha. reflexivity.
  - (* a dictionary *)
    destruct fuel as [|fuel]; [pose proof (dumps_length (JDict d)); lia|].
    rewrite dumps_dict in *. cbn [List.length] in Hf.
    rewrite length_app in Hf. cbn [List.length] in Hf.
    cbn [app]. rewrite <- app_assoc. cbn [app]. rewrite scan_once_object.
    destruct d as [|kv d].
    + reflexivity.
    + assert (Hp : Forall (fun kv => valid_str (fst kv) /\ parses (snd kv))
                     (kv :: d)).
      { rewrite Forall_forall in *. intros x Hx.
        split; [apply (Hd x Hx)|apply (IH x Hx), (Hd x Hx)]. }
      destruct (join_head item_separator (item_text kv) (map item_text d)
                  (fun c => c = c_quote)) as (c & body & E & ->).
      { rewrite item_text_eq. eauto. }
      pose proof (object_loop_items (kv :: d) ltac:(discriminate) Hp fuel rest
                    body) as Ho.
      cbn [map] in *. rewrite E in *. cbn [List.length] in Hf.
      cbn [app]. rewrite skip_ws_quote. step_char.
      change (c_quote =? 125) with false. cbv iota.
      rewrite Ho by (reflexivity || lia).
      now rewrite dict_of_pairs_nodup.
Qed.

(** [json.loads(json.dumps(v)) == v] *)
Lemma loads_dumps (v : json) : valid v -> loads (dumps v) = Some v.
Proof.
  intros Hv. unfold loads.
  rewrite <- (List.app_nil_r (dumps v)) at 2.
  rewrite skip_ws_dumps, (valid_parses v Hv) by (cbn; auto || lia).
  reflexivity.
Qed.

(** The executable check agrees with [valid]. *)
Lemma scalarb_scalar (c : char) : scalarb c = true -> scalar c.
Proof.
  unfold scalarb, scalar. intros H. apply orb_true_iff in H.
  destruct H as [H|H].
  - left. now apply N.ltb_lt.
  - right. apply andb_true_iff in H. destruct H as [H1 H2].
    split; now apply N.ltb_lt.
Qed.

Lemma forallb_valid_str (s : pystr) : forallb scalarb s = true -> valid_str s.
Proof.
  intros H. apply Forall_forall. intros c Hc. apply scalarb_scalar.
  rewrite forallb_forall in H. auto.
Qed.

Lemma nodupb_NoDup (l : list pystr) : nodupb l = true -> NoDup l.
Proof.
  induction l as [|x l IH]; cbn; [constructor|]. intros H.
  apply andb_true_iff in H. destruct H as [Hx Hl]. constructor; [|auto].
  intros Hin. apply negb_true_iff in Hx.
  assert (existsb (pystr_eqb x) l = true); [|congruence].
  apply existsb_exists. exists x. split; [exact Hin|]. now apply pystr_eqb_eq.
Qed.

Lemma validb_valid (v : json) : validb v = true -> valid v.
Proof.
  induction v as [s|n|l IH|d IH] using json_ind; cbn [validb]; intros H.
  - constructor. now apply forallb_valid_str.
  - constructor.
  - constructor. rewrite Forall_forall in *. rewrite forallb_forall in H. auto.
  - apply andb_true_iff in H. destruct H as [Hn Hd].
    constructor; [now apply nodupb_NoDup|].
    rewrite Forall_forall in *. rewrite forallb_forall in Hd.
    intros kv Hkv. specialize (Hd kv Hkv). apply andb_true_iff in Hd.
    destruct Hd as [Hk Hv]. split; [now apply forallb_valid_str|auto].
Qed.

(** ** UTF-8 *)

Lemma byte_of_to_N (b : byte) : byte_of_N (Byte.to_N b) = b.
Proof. unfold byte_of_N. now rewrite Byte.of_to_N. Qed.

Lemma byte_of_N_eq (n : N) (b : byte) : n = Byte.to_N b -> byte_of_N n = b.
Proof. intros ->. apply byte_of_to_N. Qed.

Lemma utf8_decode_cons (b0 : byte) (t0 : list byte) :
  utf8_decode (b0 :: t0) =
      let n0 := Byte.to_N b0 in
      if n0 <? 0x80 then option_map (cons n0) (utf8_decode t0)
      else if n0 <? 0xC2 then None
      else if n0 <? 0xE0 then
        match t0 with
        | b1 :: t1 =>
            let n1 := Byte.to_N b1 in
            if is_cont n1 then
              option_map (cons ((n0 - 0xC0) * 64 + (n1 - 0x80))) (utf8_decode t1)
            else None
        | _ => None
        end
      else if n0 <? 0xF0 then
        match t0 with
        | b1 :: b2 :: t2 =>
            let n1 := Byte.to_N b1 in
            let n2 := Byte.to_N b2 in
            let c := (n0 - 0xE0) * 4096 + (n1 - 0x80) * 64 + (n2 - 0x80) in
            if is_cont n1 && is_cont n2 && (0x800 <=? c) && negb (is_surrogate c)
            then option_map (cons c) (utf8_decode t2)
            else None
        | _ => None
        end
      else if n0 <? 0xF5 then
        match t0 with
        | b1 :: b2 :: b3 :: t3 =>
            let n1 := Byte.to_N b1 in
            let n2 := Byte.to_N b2 in
            let n3 := Byte.to_N b3 in
            let c := (n0 - 0xF0) * 262144 + (n1 - 0x80) * 4096
                     + (n2 - 0x80) * 64 + (n3 - 0x80) in
            if is_cont n1 && is_cont n2 && is_cont n3
               && (0x10000 <=? c) && (c <? 0x110000)
            then option_map (cons c) (utf8_decode t3)
            else None
        | _ => None
        end
      else None.
Proof. reflexivity. Qed.

Lemma utf8_decode_step (bs : list byte) (s : pystr) :
  utf8_decode bs = Some s ->
  bs = [] /\ s = []
  \/ exists c t s', utf8_step bs c t /\ utf8_decode t = Some s' /\ s = c :: s'.
Proof.
  destruct bs as [|b0 t0]; intros H.
  { left. cbn in H. now injection H as <-. }
  right. rewrite utf8_decode_cons in H. cbv zeta in H.
  unfold is_cont, is_surrogate in H.
  destruct (Byte.to_N b0 <? 128) eqn:E1.
  { destruct (utf8_decode t0) as [s'|] eqn:E; [|discriminate].
    injection H as <-. exists (Byte.to_N b0), t0, s'.
    split; [|auto]. constructor. now apply N.ltb_lt. }
  destruct (Byte.to_N b0 <? 194) eqn:E2; [discriminate|].
  apply N.ltb_ge in E1, E2.
  destruct (Byte.to_N b0 <? 224) eqn:E3.
  { destruct t0 as [|b1 t1]; [discriminate|].
    destruct (128 <=? Byte.to_N b1) eqn:C1; [|discriminate].
    destruct (Byte.to_N b1 <=? 191) eqn:C2; [|discriminate].
    cbn [andb] in H.
    destruct (utf8_decode t1) as [s'|] eqn:E; [|discriminate].
    injection H as <-. do 3 eexists. split; [|eauto].
    apply N.ltb_lt in E3. apply N.leb_le in C1, C2.
    eapply step2; [reflexivity|lia..]. }
  apply N.ltb_ge in E3.
  destruct (Byte.to_N b0 <? 240) eqn:E4.
  { destruct t0 as [|b1 [|b2 t2]]; try discriminate.
    destruct (128 <=? Byte.to_N b1) eqn:C1; [|discriminate].
    destruct (Byte.to_N b1 <=? 191) eqn:C2; [|discriminate].
    destruct (128 <=? Byte.to_N b2) eqn:C3; [|discriminate].
    destruct (Byte.to_N b2 <=? 191) eqn:C4; [|discriminate].
    cbn [andb] in H.
    match type of H with
    | context [2048 <=? ?c] => set (cp := c) in *
    end.
    destruct (2048 <=? cp) eqn:C5; [|discriminate].
    destruct (55296 <=? cp) eqn:C6; destruct (cp <=? 57343) eqn:C7;
      cbn [andb negb] in H; try discriminate;
      (destruct (utf8_decode t2) as [s'|] eqn:E; [|discriminate]);
      injection H as <-; do 3 eexists; (split; [|eauto]);
      apply N.ltb_lt in E4; apply N.leb_le in C1, C2, C3, C4, C5;
      first [apply N.leb_le in C6 | apply N.leb_gt in C6];
      first [apply N.leb_le in C7 | apply N.leb_gt in C7];
      (eapply step3; [reflexivity|fold cp; lia..]). }
  apply N.ltb_ge in E4.
  destruct (Byte.to_N b0 <? 245) eqn:E5; [|discriminate].
  destruct t0 as [|b1 [|b2 [|b3 t3]]]; try discriminate.
  destruct (128 <=? Byte.to_N b1) eqn:C1; [|discriminate].
  destruct (Byte.to_N b1 <=? 191) eqn:C2; [|discriminate].
  destruct (128 <=? Byte.to_N b2) eqn:C3; [|discriminate].
  destruct (Byte.to_N b2 <=? 191) eqn:C4; [|discriminate].
  destruct (128 <=? Byte.to_N b3) eqn:C5; [|discriminate].
  destruct (Byte.to_N b3 <=? 191) eqn:C6; [|discriminate].
  cbn [andb] in H.
  match type of H with
  | context [65536 <=? ?c] => set (cp := c) in *
  end.
  destruct (65536 <=? cp) eqn:C7; [|discriminate].
  destruct (cp <? 1114112) eqn:C8; [|discriminate].
  cbn [andb] in H.
  destruct (utf8_decode t3) as [s'|] eqn:E; [|discriminate].
  injection H as <-. do 3 eexists. split; [|eauto].
  apply N.ltb_lt in E5, C8. apply N.leb_le in C1, C2, C3, C4, C5, C6, C7.
  eapply step4; [reflexivity|fold cp; lia..].
Qed.

Lemma utf8_step_shorter bs c t : utf8_step bs c t -> (List.length t < List.length bs)%nat.
Proof. destruct 1; cbn; lia. Qed.


(** The encoder gives back the bytes the decoder took. *)
Lemma utf8_step_encode bs c t :
  utf8_step bs c t ->
  exists pre, utf8_encode_char c = Some pre /\ bs = pre ++ t.
Proof.
  unfold utf8_encode_char, is_surrogate.
  destruct 1 as [b0 t H0|b0 b1 t c Hc H0 H1|b0 b1 b2 t c Hc H0 H1 H2 Hlo Hs
                |b0 b1 b2 b3 t c Hc H0 H1 H2 H3 Hr].
  - apply N.ltb_lt in H0. rewrite H0, byte_of_to_N. eexists; split; reflexivity.
  - assert (0x80 <= c < 0x800) as [Ha Hb] by lia.
    apply N.ltb_ge in Ha. apply N.ltb_lt in Hb. rewrite Ha, Hb.
    eexists; split; [reflexivity|]. cbn [app].
    rewrite (byte_of_N_eq _ b0), (byte_of_N_eq _ b1); [reflexivity|..];
      subst c; N_arith.
  - assert (0x800 <= c < 0x10000) as [Ha Hb] by lia.
    assert (Hn : 0x80 <= c) by lia.
    apply N.ltb_ge in Ha, Hn. apply N.ltb_lt in Hb. rewrite Hn, Ha, Hb.
    replace ((55296 <=? c) && (c <=? 57343)) with false.
    2:{ symmetry. apply andb_false_iff.
        destruct (N.leb_spec 55296 c); [right|left; reflexivity].
        apply N.leb_gt. lia. }
    eexists; split; [reflexivity|]. cbn [app].
    rewrite (byte_of_N_eq _ b0), (byte_of_N_eq _ b1), (byte_of_N_eq _ b2);
      [reflexivity|..]; subst c; N_arith.
  - destruct Hr as [Ha Hb].
    assert (Hn : 0x80 <= c) by lia. assert (Hm : 0x800 <= c) by lia.
    apply N.ltb_ge in Ha, Hn, Hm. apply N.ltb_lt in Hb. rewrite Hn, Hm, Ha, Hb.
    eexists; split; [reflexivity|]. cbn [app].
    rewrite (byte_of_N_eq _ b0), (byte_of_N_eq _ b1), (byte_of_N_eq _ b2),
      (byte_of_N_eq _ b3); [reflexivity|..]; subst c; N_arith.
Qed.

Lemma utf8_decode_ind (P : list byte -> pystr -> Prop) :
  P [] [] ->
  (forall bs c t s, utf8_step bs c t -> utf8_decode t = Some s -> P t s ->
                    P bs (c :: s)) ->
  forall bs s, utf8_decode bs = Some s -> P bs s.
Proof.
  intros Hnil Hcons bs.
  induction bs as [bs IH] using (well_founded_induction
    (Wf_nat.well_founded_ltof _ (@List.length byte))).
  intros s H. destruct (utf8_decode_step bs s H) as [[-> ->]|(c & t & s' & Hs & Ht & ->)].
  - exact Hnil.
  - apply (Hcons bs c t s' Hs Ht). apply IH; [|exact Ht].
    apply (utf8_step_shorter _ _ _ Hs).
Qed.

(** What the strict decoder accepts, the encoder writes back unchanged. *)
Lemma utf8_decode_encode (bs : list byte) (s : pystr) :
  utf8_decode bs = Some s -> utf8_encode s = Some bs.
Proof.
  revert bs s. apply utf8_decode_ind; [reflexivity|].
  intros bs c t s Hs _ IH. cbn [utf8_encode].
  destruct (utf8_step_encode _ _ _ Hs) as (pre & -> & ->). now rewrite IH.
Qed.


(** A carriage return in the text is a carriage return in the file. *)
Lemma utf8_decode_return (bs : list byte) (s : pystr) :
  utf8_decode bs = Some s -> In c_return s -> In x0d bs.
Proof.
  revert bs s.
  apply (utf8_decode_ind (fun bs s => In c_return s -> In x0d bs)); [intros []|].
  intros bs c t s Hs _ IH [Hc|Hin].
  - unfold c_return in Hc. destruct Hs; subst; try lia.
    left. apply (f_equal byte_of_N) in Hc. now rewrite byte_of_to_N in Hc.
  - specialize (IH Hin). destruct Hs; cbn; auto 6.
Qed.

(** ASCII bytes are themselves in UTF-8. *)
Lemma utf8_decode_ascii (bs : list byte) :
  forallb (fun b => Byte.to_N b <? 0x80) bs = true ->
  utf8_decode bs = Some (map Byte.to_N bs).
Proof.
  induction bs as [|b bs IH]; cbn [forallb]; intros H; [reflexivity|].
  apply andb_true_iff in H. destruct H as [Ha Hb].
  rewrite utf8_decode_cons. cbv zeta. rewrite Ha, (IH Hb). reflexivity.
Qed.

Lemma universal_newlines_id (s : pystr) :
  ~ In c_return s -> universal_newlines s = s.
Proof.
  induction s as [|c s IH]; [reflexivity|]. intros H. cbn [universal_newlines].
  destruct (N.eqb_spec c c_return) as [->|_].
  - exfalso. apply H. now left.
  - rewrite IH; [reflexivity|]. intros Hin. apply H. now right.
Qed.




(** ** The status check *)




(** ** What a run of each script is *)

Ltac run_monad :=
  cbv [try_except bind store load ret raise emit print print_exn print_exc
       vars trace lift_result requests_post open_ raise_for_status run
       isinstance_Exception].

(** The body of the request of [create-thing.py] is the string it was
    given. *)
Lemma thing_prepare (b : pystr) (v : json) :
  prepare_body (create_thing.post_args b (dumps v)) = Ok (Raw (dumps v)).
Proof.
  unfold prepare_body. cbn [files data create_thing.post_args].
  destruct (dumps_head v) as (c & s & -> & _). reflexivity.
Qed.

(** [create-thing.py], by what the network does with its request. *)
Lemma thing_main (w : World) :
  create_thing.main w =
  match network w thing_request with
  | Responded r =>
      match http_error_msg r with
      | [] => ([Post thing_request; Printed (PText (text r))], Exited)
      | c :: msg =>
          ([Post thing_request; thing_header;
            Printed (PExn (HTTPError (c :: msg) r)); Printed (PText (text r))],
           Exited)
      end
  | Refused msg =>
      ([Post thing_request; thing_header; Printed (PExn (ConnectionError msg))],
       Uncaught (NameError "r"))
  end.
Proof.
  unfold create_thing.main, create_thing.script, create_thing.try_block,
    create_thing.rest_of_try, create_thing.handler.
  run_monad.
  cbv [create_thing.set_base_url create_thing.set_params create_thing.set_xml
       create_thing.set_props create_thing.set_r create_thing.xml
       create_thing.params create_thing.base_url create_thing.props
       create_thing.r create_thing.unbound].
  rewrite thing_prepare. fold thing_request.
  destruct (network w thing_request) as [r|msg]; cbn [app].
  - destruct (http_error_msg r); reflexivity.
  - reflexivity.
Qed.

Lemma mapping_main (w : World) :
  createBEOLTEIMapping.main w =
  match fs w createBEOLTEIMapping.xml_path with
  | None => ([PrintExc (FileNotFoundError createBEOLTEIMapping.xml_path)], Exited)
  | Some bs =>
      match prepare_body (mapping_args w bs) with
      | Raise e => ([PrintExc e], Exited)
      | Ok b =>
          let q := request_of (mapping_args w bs) b in
          match network w q with
          | Refused msg => ([Post q; PrintExc (ConnectionError msg)], Exited)
          | Responded r =>
              match http_error_msg r with
              | [] => ([Post q; Printed (PText (text r))], Exited)
              | c :: msg =>
                  ([Post q; Printed (PText (text r));
                    PrintExc (HTTPError (c :: msg) r)], Exited)
              end
          end
      end
  end.
Proof.
  unfold createBEOLTEIMapping.main, createBEOLTEIMapping.script,
    createBEOLTEIMapping.try_block, createBEOLTEIMapping.handler.
  run_monad.
  cbv [createBEOLTEIMapping.set_mappingParams
       createBEOLTEIMapping.set_mappingRequest
       createBEOLTEIMapping.mappingParams createBEOLTEIMapping.mappingRequest
       createBEOLTEIMapping.unbound].
  destruct (fs w createBEOLTEIMapping.xml_path) as [bs|]; [|reflexivity].
  fold (mapping_args w bs).
  destruct (prepare_body (mapping_args w bs)) as [b|e]; [|reflexivity].
  cbv zeta.
  destruct (network w (request_of (mapping_args w bs) b)) as [r|msg];
    cbn [app]; [|reflexivity].
  destruct (http_error_msg r); reflexivity.
Qed.



(** ** The outermost handler *)


(** [create-thing.py] ends normally whenever a response came back. *)
Lemma thing_exits_when_answered (w : World) (r : Response) :
  network w thing_request = Responded r ->
  snd (create_thing.main w) = Exited.
Proof.
  intros H. rewrite thing_main, H. destruct (http_error_msg r); reflexivity.
Qed.

(** C1 (the code departs from it): when the connection is refused,
    [create-thing.py] prints its message and the exception, and then its
    handler reads [r], which was never bound: a [NameError] leaves the
    handler and the run ends with exit status 1. *)
Theorem thing_handler_raises_when_refused (w : World) (msg : pystr) :
  network w thing_request = Refused msg ->
  main create_thing_py w
  = ([Post thing_request; thing_header; Printed (PExn (ConnectionError msg))],
     Uncaught (NameError "r"))
  /\ exit_code (snd (main create_thing_py w)) = 1%Z.
Proof.
  intros H. cbn [main]. rewrite thing_main, H. split; reflexivity.
Qed.

Lemma thing_handler_raises_when_refused_witness :
  main create_thing_py world_refusing
  = ([Post thing_request; thing_header;
      Printed (PExn (ConnectionError (py "Connection refused")))],
     Uncaught (NameError "r"))
  /\ exit_code (snd (main create_thing_py world_refusing)) = 1%Z.
Proof.
  apply (thing_handler_raises_when_refused world_refusing
           (py "Connection refused")).
  reflexivity.
Defined.

(** ** Success *)



(** ** Failure *)



(** ** The multipart request *)

Lemma json_field_bytes :
  utf8_encode (dumps createBEOLTEIMapping.mappingParams_literal)
  = Some (map byte_of_N (dumps createBEOLTEIMapping.mappingParams_literal)).
Proof. vm_compute. reflexivity. Qed.

Lemma mapping_prepare (w : World) (bs : list byte) :
  prepare_body (mapping_args w bs) =
  match decode (locale w) bs with
  | None => Raise (UnicodeDecodeError (locale w))
  | Some txt =>
      match utf8_encode (universal_newlines txt) with
      | Some content => Ok (Multipart [json_part; xml_part content])
      | None => Raise UnicodeEncodeError
      end
  end.
Proof.
  unfold prepare_body, mapping_args, createBEOLTEIMapping.post_args.
  cbn [files data]. unfold encode_files.
  cbn [collect file_part]. unfold field_part. cbn [fst snd].
  rewrite json_field_bytes.
  unfold read. cbn [raw encoding app].
  destruct (decode (locale w) bs) as [txt|]; cbn [option_map]; [|reflexivity].
  destruct (utf8_encode (universal_newlines txt)); reflexivity.
Qed.


Lemma mapping_prepare_ok (w : World) (bs : list byte) (b : wire_body) :
  prepare_body (mapping_args w bs) = Ok b <->
  exists txt content,
    decode (locale w) bs = Some txt
    /\ utf8_encode (universal_newlines txt) = Some content
    /\ b = Multipart [json_part; xml_part content].
Proof.
  rewrite mapping_prepare. split.
  - destruct (decode (locale w) bs) as [txt|]; [|discriminate].
    destruct (utf8_encode (universal_newlines txt)) as [c|] eqn:E;
      [|discriminate].
    intros [= <-]. exists txt, c. auto.
  - intros (txt & c & -> & -> & ->). reflexivity.
Qed.

(** The requests in the trace of [createBEOLTEIMapping.py]. *)
Lemma mapping_posts (w : World) :
  posts (fst (createBEOLTEIMapping.main w)) =
  match fs w createBEOLTEIMapping.xml_path with
  | None => []
  | Some bs =>
      match prepare_body (mapping_args w bs) with
      | Raise _ => []
      | Ok b => [request_of (mapping_args w bs) b]
      end
  end.
Proof.
  rewrite mapping_main.
  destruct (fs w createBEOLTEIMapping.xml_path) as [bs|]; [|reflexivity].
  destruct (prepare_body (mapping_args w bs)) as [b|e]; [|reflexivity].
  cbv zeta.
  destruct (network w (request_of (mapping_args w bs) b)) as [r|msg];
    [destruct (http_error_msg r)|]; reflexivity.
Qed.

Lemma thing_posts (w : World) :
  posts (fst (create_thing.main w)) = [thing_request].
Proof.
  rewrite thing_main.
  destruct (network w thing_request) as [r|msg];
    [destruct (http_error_msg r)|]; reflexivity.
Qed.

Lemma in_posts (t : list event) (q : Request) : In q (posts t) <-> In (Post q) t.
Proof.
  unfold posts. rewrite in_flat_map. split.
  - intros (ev & Hin & Hq). destruct ev; try contradiction.
    destruct Hq as [->|[]]. exact Hin.
  - intros H. exists (Post q). split; [exact H|now left].
Qed.

(** C4, as stated, fails: the file is opened in text mode, and a file with
    the bytes [a \r \n b] is sent as [a \n b]. *)
Lemma xml_part_not_bytewise :
  exists q content,
    fs world_with_crlf_file createBEOLTEIMapping.xml_path = Some crlf_file
    /\ posts (fst (main createBEOLTEIMapping_py world_with_crlf_file)) = [q]
    /\ req_body q = Multipart [json_part; xml_part content]
    /\ content <> crlf_file.
Proof.
  eexists. exists [x61; x0a; x62].
  split; [reflexivity|]. split; [vm_compute; reflexivity|].
  split; [vm_compute; reflexivity|]. discriminate.
Qed.

(** The encoding matters as well: under a Latin-1 locale the byte [e9] is
    sent as the two bytes [c3 a9]. *)
Remark xml_part_depends_on_locale :
  exists q,
    posts (fst (main createBEOLTEIMapping_py world_with_latin_1_locale)) = [q]
    /\ req_body q = Multipart [json_part; xml_part [xc3; xa9]].
Proof. eexists. split; vm_compute; reflexivity. Qed.

(** C4, amended: the request has a part [json] with the serialized
    dictionary of three keys and a part [xml], with the file name
    [BEOLTEImapping.xml], whose content is the text of the file as text
    mode reads it (decoded in the locale's encoding, line endings turned
    into line feeds), encoded as UTF-8.  That is the file byte for byte
    when the locale's encoding is UTF-8 or ASCII and the file has no
    carriage return. *)
Theorem mapping_request_parts (w : World) (bs : list byte) (q : Request) :
  fs w createBEOLTEIMapping.xml_path = Some bs ->
  In (Post q) (fst (main createBEOLTEIMapping_py w)) ->
  exists txt content,
    decode (locale w) bs = Some txt
    /\ utf8_encode (universal_newlines txt) = Some content
    /\ req_body q = Multipart [json_part; xml_part content]
    /\ loads (dumps createBEOLTEIMapping.mappingParams_literal)
       = Some createBEOLTEIMapping.mappingParams_literal
    /\ all_keys createBEOLTEIMapping.mappingParams_literal
       = [py "http://api.knora.org/ontology/knora-api/v2#mappingHasName";
          py "http://api.knora.org/ontology/knora-api/v2#attachedToProject";
          py "http://www.w3.org/2000/01/rdf-schema#label"]
    /\ (locale w = UTF_8 \/ locale w = US_ASCII ->
        ~ In x0d bs -> content = bs).
Proof.
  intros Hfs Hin. apply in_posts in Hin. cbn [main] in Hin.
  rewrite mapping_posts, Hfs in Hin.
  destruct (prepare_body (mapping_args w bs)) as [b|e] eqn:Hp; [|contradiction].
  destruct Hin as [<-|[]].
  apply mapping_prepare_ok in Hp. destruct Hp as (txt & content & Hd & He & ->).
  exists txt, content.
  split; [exact Hd|]. split; [exact He|]. split; [reflexivity|].
  split; [apply loads_dumps, validb_valid; vm_compute; reflexivity|].
  split; [reflexivity|].
  intros Hl Hcr.
  assert (Hu : utf8_decode bs = Some txt).
  { destruct Hl as [Hl|Hl]; rewrite Hl in Hd; cbn [decode] in Hd; [exact Hd|].
    destruct (forallb _ bs) eqn:Ha; [|discriminate].
    injection Hd as <-. now apply utf8_decode_ascii. }
  clear Hd. rename Hu into Hd.
  rewrite universal_newlines_id in He.
  - rewrite (utf8_decode_encode bs txt Hd) in He. now injection He.
  - intros Hin. apply Hcr. exact (utf8_decode_return bs txt Hd Hin).
Qed.

Lemma mapping_request_parts_witness :
  exists txt content,
    decode (locale (world_answering resp_ok)) lf_file = Some txt
    /\ utf8_encode (universal_newlines txt) = Some content
    /\ req_body
         (request_of (mapping_args (world_answering resp_ok) lf_file)
            (Multipart [json_part; xml_part lf_file]))
       = Multipart [json_part; xml_part content]
    /\ loads (dumps createBEOLTEIMapping.mappingParams_literal)
       = Some createBEOLTEIMapping.mappingParams_literal
    /\ all_keys createBEOLTEIMapping.mappingParams_literal
       = [py "http://api.knora.org/ontology/knora-api/v2#mappingHasName";
          py "http://api.knora.org/ontology/knora-api/v2#attachedToProject";
          py "http://www.w3.org/2000/01/rdf-schema#label"]
    /\ (locale (world_answering resp_ok) = UTF_8
        \/ locale (world_answering resp_ok) = US_ASCII ->
        ~ In x0d lf_file -> content = lf_file).
Proof.
  apply (mapping_request_parts (world_answering resp_ok) lf_file).
  - reflexivity.
  - vm_compute. left. reflexivity.
Defined.

(** ** The request of [create-thing.py] *)

(** C5: [create-thing.py] posts to [http://localhost/v1/resources] through
    the proxy [http://localhost:3333], with the content type
    [application/json; charset=utf8] and basic-auth credentials; the body
    is JSON whose top-level keys are [restype_id], [label], [project_id]
    and [properties], and [properties] maps the two property identifiers
    to lists of [{richtext_value: {xml, mapping_id}}] and
    [{int_value: int}]. *)
Theorem thing_request_shape (w : World) :
  posts (fst (main create_thing_py w)) = [thing_request]
  /\ req_method thing_request = py "POST"
  /\ req_url thing_request = py "http://localhost/v1/resources"
  /\ req_proxies thing_request = [(py "http", py "http://localhost:3333")]
  /\ req_headers thing_request
     = [(py "content-type", py "application/json; charset=utf8")]
  /\ req_auth thing_request = Some (py "root", py "test")
  /\ exists body p x m n,
       req_body thing_request = Raw body
       /\ loads body = Some (JDict p)
       /\ keys p = [py "restype_id"; py "label"; py "project_id";
                    py "properties"]
       /\ dict_get p (py "properties")
          = Some
              (JDict
                 [ (py "http://www.knora.org/ontology/anything#hasText",
                    JList
                      [ JDict
                          [ (py "richtext_value",
                             JDict [ (py "xml", JStr x);
                                     (py "mapping_id", JStr m) ]) ] ]);
                   (py "http://www.knora.org/ontology/anything#hasInteger",
                    JList [ JDict [ (py "int_value", JInt n) ] ]) ]).
Proof.
  split; [apply thing_posts|]. do 5 (split; [reflexivity|]).
  do 5 eexists. split; [reflexivity|].
  split; [apply loads_dumps, validb_valid; vm_compute; reflexivity|].
  split; reflexivity.
Qed.

(** ** Serialization *)



(** Why the strings of a valid payload are Unicode text: [json.loads]
    reads two escaped surrogates that follow each other as one character. *)
Remark surrogates_are_joined :
  loads (dumps (JStr [0xD83D; 0xDE00])) = Some (JStr [0x1F600]).
Proof. vm_compute. reflexivity. Qed.

(** ** The missing file *)

(** C7: when the XML file does not exist, [createBEOLTEIMapping.py] writes
    the traceback of the [FileNotFoundError] and sends nothing. *)
Theorem missing_file_is_reported (w : World) :
  fs w createBEOLTEIMapping.xml_path = None ->
  stderr (fst (main createBEOLTEIMapping_py w))
  = [FileNotFoundError createBEOLTEIMapping.xml_path]
  /\ posts (fst (main createBEOLTEIMapping_py w)) = []
  /\ stdout (fst (main createBEOLTEIMapping_py w)) = []
  /\ snd (main createBEOLTEIMapping_py w) = Exited.
Proof.
  intros H. cbn [main]. rewrite mapping_main, H. repeat split.
Qed.

Lemma missing_file_is_reported_witness :
  stderr (fst (main createBEOLTEIMapping_py world_without_file))
  = [FileNotFoundError createBEOLTEIMapping.xml_path]
  /\ posts (fst (main createBEOLTEIMapping_py world_without_file)) = []
  /\ stdout (fst (main createBEOLTEIMapping_py world_without_file)) = []
  /\ snd (main createBEOLTEIMapping_py world_without_file) = Exited.
Proof.
  apply (missing_file_is_reported world_without_file). reflexivity.
Defined.

(** ** One request *)



(** ** The first [params] *)

(** C9: the first dictionary bound to [params] is never used.  The script
    and the script without that assignment do the same from any state (the
    same result, the same variables, the same trace); the body sent is the
    serialization of the second dictionary, and neither [_link] nor
    [bold] is a key anywhere in it. *)
Theorem first_params_is_dead (w : World) (st : state create_thing.locals) :
  create_thing.script w st = create_thing.script_without_params_1 w st
  /\ create_thing.main w = create_thing.main_without_params_1 w
  /\ posts (fst (create_thing.main w)) = [thing_request]
  /\ req_body thing_request
     = Raw (dumps (create_thing.params_2 create_thing.xml_literal))
  /\ loads (dumps (create_thing.params_2 create_thing.xml_literal))
     = Some (create_thing.params_2 create_thing.xml_literal)
  /\ ~ In (py "_link")
          (all_keys (create_thing.params_2 create_thing.xml_literal))
  /\ ~ In (py "bold")
          (all_keys (create_thing.params_2 create_thing.xml_literal)).
Proof.
  split; [reflexivity|]. split; [reflexivity|].
  split; [apply thing_posts|]. split; [reflexivity|].
  split; [apply loads_dumps, validb_valid; vm_compute; reflexivity|].
  split; vm_compute; intros H;
    repeat (destruct H as [H|H]; [discriminate|]); exact H.
Qed.

(** ** Body first, status second *)



(* ================================================================= *)
(** * Further properties *)

(** ** More on [json.dumps]: the text is ASCII *)

Lemma hexdigit_printable (d : N) : d < 16 -> printable_ascii (hexdigit d).
Proof.
  unfold printable_ascii, hexdigit. intros H.
  destruct (N.ltb_spec d 10); lia.
Qed.

Lemma escape_u_printable (n : N) :
  n < 65536 -> Forall printable_ascii (escape_u n).
Proof.
  intros H. unfold escape_u.
  repeat constructor; try (unfold printable_ascii, c_backslash; lia);
    apply hexdigit_printable; N_arith.
Qed.

Lemma escape_char_printable (c : char) :
  c < 0x110000 -> Forall printable_ascii (escape_char c).
Proof.
  intros Hc. unfold escape_char.
  repeat match goal with
    | |- context [N.eqb c ?k] =>
        destruct (N.eqb_spec c k);
        [repeat constructor; unfold printable_ascii, c_backslash, c_quote; lia|]
    end.
  destruct (N.leb_spec 32 c); [destruct (N.leb_spec c 126)|]; cbn [andb].
  - constructor; [unfold printable_ascii; lia|constructor].
  - destruct (N.ltb_spec c 65536); [now apply escape_u_printable|].
    cbv zeta. rewrite high_surrogate_of, low_surrogate_of by lia.
    apply Forall_app. split; apply escape_u_printable; N_arith.
  - destruct (N.ltb_spec c 65536); [|lia]. now apply escape_u_printable.
Qed.

Lemma encode_basestring_ascii_printable (s : pystr) :
  in_range s -> Forall printable_ascii (encode_basestring_ascii s).
Proof.
  intros H. unfold encode_basestring_ascii.
  assert (Hq : Forall printable_ascii dq).
  { repeat constructor; unfold printable_ascii, c_quote; lia. }
  apply Forall_app. split; [exact Hq|]. apply Forall_app. split; [|exact Hq].
  induction H as [|c s Hc _ IH]; cbn [flat_map]; [constructor|].
  apply Forall_app. split; [now apply escape_char_printable|exact IH].
Qed.

Lemma int_repr_printable (n : Z) : Forall printable_ascii (int_repr n).
Proof.
  assert (H : forall u, Forall printable_ascii (uint_chars u)).
  { induction u; cbn [uint_chars]; constructor; auto;
      unfold printable_ascii, digit_char; lia. }
  unfold int_repr. destruct (Z.to_int n); [apply H|].
  constructor; [unfold printable_ascii; lia|apply H].
Qed.

Lemma join_Forall (P : char -> Prop) (sep : pystr) (l : list pystr) :
  Forall P sep -> Forall (Forall P) l -> Forall P (join sep l).
Proof.
  intros Hs. induction 1 as [|x l Hx Hl IH]; [constructor|].
  cbn [join]. destruct l; [exact Hx|].
  apply Forall_app. split; [exact Hx|]. apply Forall_app. split; assumption.
Qed.

Lemma dumps_printable (v : json) :
  Forall in_range (all_strings v) -> Forall printable_ascii (dumps v).
Proof.
  assert (Hsep : Forall printable_ascii item_separator).
  { repeat constructor; unfold printable_ascii; cbn; lia. }
  induction v as [s|n|l IH|d IH] using json_ind; cbn [all_strings dumps];
    intros H.
  - apply encode_basestring_ascii_printable. now inversion H.
  - apply int_repr_printable.
  - apply Forall_app. split; [repeat constructor; unfold printable_ascii; cbn; lia|].
    apply Forall_app. split; [|repeat constructor; unfold printable_ascii; cbn; lia].
    apply join_Forall; [exact Hsep|].
    apply Forall_map. rewrite Forall_forall in *. intros x Hx. apply (IH x Hx).
    apply Forall_forall. intros s Hs. apply H. apply in_flat_map. eauto.
  - apply Forall_app. split; [repeat constructor; unfold printable_ascii; cbn; lia|].
    apply Forall_app. split; [|repeat constructor; unfold printable_ascii; cbn; lia].
    apply join_Forall; [exact Hsep|].
    apply Forall_map. rewrite Forall_forall in *. intros [k x] Hx. cbn [fst snd].
    apply Forall_app. split.
    + apply encode_basestring_ascii_printable. apply H.
      apply in_flat_map. exists (k, x). split; [exact Hx|now left].
    + apply Forall_app. split;
        [repeat constructor; unfold printable_ascii; cbn; lia|].
      apply (IH (k, x) Hx). apply Forall_forall. intros s Hs. apply H.
      apply in_flat_map. exists (k, x). split; [exact Hx|now right].
Qed.

Lemma utf8_encode_ascii (s : pystr) :
  Forall (fun c => c < 0x80) s -> utf8_encode s = Some (map byte_of_N s).
Proof.
  induction 1 as [|c s Hc _ IH]; [reflexivity|].
  cbn [utf8_encode map]. rewrite IH. unfold utf8_encode_char.
  apply N.ltb_lt in Hc. now rewrite Hc.
Qed.

(** ** More on UTF-8: decoding what was encoded *)

Lemma to_N_byte_of_N (n : N) : n < 256 -> Byte.to_N (byte_of_N n) = n.
Proof.
  intros H. unfold byte_of_N. destruct (Byte.of_N n) as [b|] eqn:E.
  - now apply Byte.to_of_N.
  - apply Byte.of_N_None_iff in E. lia.
Qed.

Ltac decide_N :=
  repeat match goal with
    | |- context [N.ltb ?a ?b] =>
        destruct (N.ltb_spec a b); try (exfalso; N_arith)
    | |- context [N.leb ?a ?b] =>
        destruct (N.leb_spec a b); try (exfalso; N_arith)
    end.

Lemma Some_eq {A} (x y : A) : Some x = Some y -> x = y.
Proof. now intros [= ->]. Qed.

(** The decoder reads back the bytes of one code point. *)
Lemma utf8_decode_encode_char (c : char) (pre t : list byte) :
  utf8_encode_char c = Some pre ->
  utf8_decode (pre ++ t) = option_map (cons c) (utf8_decode t).
Proof.
  unfold utf8_encode_char, is_surrogate.
  destruct (N.ltb_spec c 0x80) as [H1|H1].
  { intros E. apply Some_eq in E. subst pre.
    cbn [app]. rewrite utf8_decode_cons. cbv zeta.
    rewrite to_N_byte_of_N by lia. apply N.ltb_lt in H1. now rewrite H1. }
  destruct (N.ltb_spec c 0x800) as [H2|H2].
  { intros E. apply Some_eq in E. subst pre.
    cbn [app]. rewrite utf8_decode_cons. cbv zeta.
    unfold is_cont. rewrite !to_N_byte_of_N by N_arith.
    match goal with
    | |- context [option_map (cons ?e) _] => replace e with c by N_arith
    end.
    decide_N. cbn [andb]. reflexivity. }
  destruct (N.ltb_spec c 0x10000) as [H3|H3].
  { destruct (N.leb_spec 0xD800 c) as [H4|H4];
      [destruct (N.leb_spec c 0xDFFF) as [H5|H5]|]; cbn [andb];
      [discriminate|..];
      intros E; apply Some_eq in E; subst pre;
      cbn [app]; rewrite utf8_decode_cons; cbv zeta;
      unfold is_cont, is_surrogate; rewrite !to_N_byte_of_N by N_arith;
      match goal with
      | |- context [option_map (cons ?e) _] =>
          replace e with c by N_arith
      end;
      decide_N; cbn [andb negb]; reflexivity. }
  destruct (N.ltb_spec c 0x110000) as [H4|H4]; [|discriminate].
  intros E. apply Some_eq in E. subst pre.
  cbn [app]. rewrite utf8_decode_cons. cbv zeta.
  unfold is_cont. rewrite !to_N_byte_of_N by N_arith.
  match goal with
  | |- context [option_map (cons ?e) _] => replace e with c by N_arith
  end.
  decide_N. cbn [andb]. reflexivity.
Qed.

(** [s.encode('utf-8').decode('utf-8') == s] *)
Lemma utf8_encode_decode (s : pystr) (bs : list byte) :
  utf8_encode s = Some bs -> utf8_decode bs = Some s.
Proof.
  revert bs. induction s as [|c s IH]; intros bs; cbn [utf8_encode].
  - now intros [= <-].
  - destruct (utf8_encode_char c) as [pre|] eqn:Ec; [|discriminate].
    destruct (utf8_encode s) as [t|]; [|discriminate].
    intros E. apply Some_eq in E. subst bs.
    rewrite (utf8_decode_encode_char c pre t Ec), (IH t eq_refl). reflexivity.
Qed.

(** A carriage return in the file is a carriage return in the text. *)
Lemma utf8_decode_return_inv (bs : list byte) (s : pystr) :
  utf8_decode bs = Some s -> In x0d bs -> In c_return s.
Proof.
  revert bs s.
  apply (utf8_decode_ind (fun bs s => In x0d bs -> In c_return s)); [intros []|].
  intros bs c t s Hs _ IH Hin.
  assert (Hcr : forall b, 0x80 <= Byte.to_N b -> b <> x0d).
  { intros b Hb E. subst b. cbn in Hb. lia. }
  destruct Hs; cbn [In] in Hin |- *;
    repeat match goal with
      | H : _ \/ _ |- _ => destruct H as [H|H]
      | H : ?b = x0d |- _ =>
          first [exfalso; apply (Hcr b); [lia|exact H] | subst b; now left]
      end; auto.
Qed.

Lemma universal_newlines_no_return (s : pystr) :
  ~ In c_return (universal_newlines s).
Proof.
  induction s as [s IH] using (well_founded_induction
    (Wf_nat.well_founded_ltof _ (@List.length char))).
  destruct s as [|c s]; [intros []|]. cbn [universal_newlines].
  destruct (N.eqb_spec c c_return) as [->|Hc].
  - intros [H|H]; [discriminate|]. revert H.
    destruct s as [|d s']; [intros []|].
    destruct (d =? c_newline); apply IH; unfold Wf_nat.ltof; cbn; lia.
  - intros [H|H]; [congruence|]. revert H.
    apply IH. unfold Wf_nat.ltof. cbn. lia.
Qed.

(** ** The two outcomes of [createBEOLTEIMapping.py] *)





(** X5: when the XML file exists but is not text in the locale's
    encoding, [createBEOLTEIMapping.py] sends nothing and prints nothing;
    it writes the traceback of the [UnicodeDecodeError] and ends
    normally. *)
Theorem undecodable_file_is_reported (w : World) (bs : list byte) :
  fs w createBEOLTEIMapping.xml_path = Some bs ->
  decode (locale w) bs = None ->
  main createBEOLTEIMapping_py w
  = ([PrintExc (UnicodeDecodeError (locale w))], Exited).
Proof.
  intros Hf Hd. cbn [main]. rewrite mapping_main, Hf, mapping_prepare, Hd.
  reflexivity.
Qed.

Lemma undecodable_file_is_reported_witness :
  main createBEOLTEIMapping_py world_with_undecodable_file
  = ([PrintExc (UnicodeDecodeError UTF_8)], Exited).
Proof.
  apply (undecodable_file_is_reported world_with_undecodable_file latin_1_file);
    reflexivity.
Defined.

(** ** The exit status of [create-thing.py] *)




(** ** Statuses that are no errors *)



(** ** What [createBEOLTEIMapping.py] sends *)

Lemma mapping_post_inv (w : World) (q : Request) :
  In (Post q) (fst (createBEOLTEIMapping.main w)) ->
  exists bs txt content,
    fs w createBEOLTEIMapping.xml_path = Some bs
    /\ decode (locale w) bs = Some txt
    /\ utf8_encode (universal_newlines txt) = Some content
    /\ q = request_of (mapping_args w bs)
             (Multipart [json_part; xml_part content]).
Proof.
  intros Hin. apply in_posts in Hin. rewrite mapping_posts in Hin.
  destruct (fs w createBEOLTEIMapping.xml_path) as [bs|]; [|contradiction].
  destruct (prepare_body (mapping_args w bs)) as [b|e] eqn:Hp; [|contradiction].
  destruct Hin as [<-|[]].
  apply mapping_prepare_ok in Hp. destruct Hp as (txt & content & Hd & He & ->).
  exists bs, txt, content. auto.
Qed.



(** X6: the XML that [createBEOLTEIMapping.py] attaches never contains a
    carriage return, whatever the file and the locale: text mode has
    turned every line ending into a line feed. *)
Theorem xml_part_has_no_carriage_return (w : World) (q : Request) :
  In (Post q) (fst (main createBEOLTEIMapping_py w)) ->
  exists content,
    req_body q = Multipart [json_part; xml_part content]
    /\ ~ In x0d content.
Proof.
  intros Hin. cbn [main] in Hin. apply mapping_post_inv in Hin.
  destruct Hin as (bs & txt & content & _ & _ & He & ->).
  exists content. split; [reflexivity|]. intros Hcr.
  apply (universal_newlines_no_return txt).
  apply (utf8_decode_return_inv content); [|exact Hcr].
  now apply utf8_encode_decode.
Qed.

Lemma xml_part_has_no_carriage_return_witness :
  exists content,
    req_body
      (request_of (mapping_args world_with_crlf_file crlf_file)
         (Multipart [json_part; xml_part [x61; x0a; x62]]))
    = Multipart [json_part; xml_part content]
    /\ ~ In x0d content.
Proof.
  apply (xml_part_has_no_carriage_return world_with_crlf_file).
  vm_compute. left. reflexivity.
Defined.

(** X7: whatever the locale's encoding, the XML that
    [createBEOLTEIMapping.py] attaches is well-formed UTF-8, and decodes
    to the text that was read from the file. *)
Theorem xml_part_is_utf8 (w : World) (bs : list byte) (q : Request) :
  fs w createBEOLTEIMapping.xml_path = Some bs ->
  In (Post q) (fst (main createBEOLTEIMapping_py w)) ->
  exists txt content,
    decode (locale w) bs = Some txt
    /\ req_body q = Multipart [json_part; xml_part content]
    /\ utf8_decode content = Some (universal_newlines txt).
Proof.
  intros Hf Hin. cbn [main] in Hin. apply mapping_post_inv in Hin.
  destruct Hin as (bs' & txt & content & Hf' & Hd & He & ->).
  rewrite Hf in Hf'. injection Hf' as <-.
  exists txt, content. split; [exact Hd|]. split; [reflexivity|].
  now apply utf8_encode_decode.
Qed.

Lemma xml_part_is_utf8_witness :
  exists txt content,
    decode (locale world_with_latin_1_locale) latin_1_file = Some txt
    /\ req_body
         (request_of (mapping_args world_with_latin_1_locale latin_1_file)
            (Multipart [json_part; xml_part [xc3; xa9]]))
       = Multipart [json_part; xml_part content]
    /\ utf8_decode content = Some (universal_newlines txt).
Proof.
  apply (xml_part_is_utf8 world_with_latin_1_locale latin_1_file).
  - reflexivity.
  - vm_compute. left. reflexivity.
Defined.

(** ** What [json.dumps] writes *)

(** X8: whatever the strings of a value hold, [json.dumps] writes
    characters from the space to the tilde only, so the text is its own
    encoding, one byte for each character. *)
Theorem dumps_is_ascii (v : json) :
  forallb in_rangeb (all_strings v) = true ->
  Forall printable_ascii (dumps v)
  /\ utf8_encode (dumps v) = Some (map byte_of_N (dumps v)).
Proof.
  intros H.
  assert (Hp : Forall printable_ascii (dumps v)).
  { apply dumps_printable. apply Forall_forall. intros s Hs.
    rewrite forallb_forall in H. specialize (H s Hs).
    apply Forall_forall. intros c Hc. unfold in_rangeb in H.
    rewrite forallb_forall in H. now apply N.ltb_lt, H. }
  split; [exact Hp|]. apply utf8_encode_ascii.
  apply (Forall_impl _ (P := printable_ascii)); [|exact Hp].
  unfold printable_ascii. intros c Hc. lia.
Qed.

Lemma dumps_is_ascii_witness :
  Forall printable_ascii
    (dumps (create_thing.params_2 create_thing.xml_literal))
  /\ utf8_encode (dumps (create_thing.params_2 create_thing.xml_literal))
     = Some (map byte_of_N
               (dumps (create_thing.params_2 create_thing.xml_literal))).
Proof.
  apply (dumps_is_ascii (create_thing.params_2 create_thing.xml_literal)).
  vm_compute. reflexivity.
Defined.

(** X9: two valid payloads with the same serialization are the same
    payload. *)
Theorem dumps_injective (v v' : json) :
  valid v -> valid v' -> dumps v = dumps v' -> v = v'.
Proof.
  intros Hv Hv' E. apply Some_eq.
  rewrite <- (loads_dumps v Hv), <- (loads_dumps v' Hv'). now rewrite E.
Qed.

Lemma dumps_injective_witness :
  JDict [(py "a", JList [JInt 1; JStr (py "b")])]
  = JDict [(py "a", JList [JInt 1; JStr (py "b")])].
Proof.
  apply (dumps_injective _ _).
  - apply validb_valid. vm_compute. reflexivity.
  - apply validb_valid. vm_compute. reflexivity.
  - reflexivity.
Defined.
